(** * Nexus AI: the request router of [services/geminiService.ts]

    A shallow embedding of the dispatch layer ([generateResponse],
    [runOrchestrator]) and of the specialized handlers ([generateText],
    [generateCode], [generateImage], [generateSpeech], [analyzeContent]),
    with the message model of [types.ts].

    The remote generative service ([ai.models.generateContent]) and the
    clock ([Date.now]) are outside the program: they are parameters of the
    development, acting on an abstract world state.  Every [async]
    function awaits each promise as soon as it is created, so a function
    is a sequential computation that either returns a value or throws. *)

From Stdlib Require Import ZArith Ascii String List DecimalString.
From stdpp Require Import base option list strings gmap.

Local Open Scope string_scope.
Local Open Scope Z_scope.
Local Open Scope list_scope.

(** ** JavaScript primitives used by the service *)

Module Js.

(** Truthiness of a value typed [string | undefined]: [undefined] and the
    empty string are falsy. *)
Definition truthy (v : option string) : bool :=
  match v with
  | Some (String _ _) => true
  | _ => false
  end.

(** [a || b] where [a : string | undefined] and [b : string]. *)
Definition or_else (a : option string) (b : string) : string :=
  match a with
  | Some (String c s) => String c s
  | _ => b
  end.

(** A value substituted in a template literal: [`${v}`]. *)
Definition template (v : option string) : string :=
  match v with
  | Some s => s
  | None => "undefined"
  end.

(** [s.split(sep)] for a separator of one character. The result is never
    empty: a string without the separator is returned whole. *)
Fixpoint split (sep : ascii) (s : string) : list string :=
  match s with
  | EmptyString => [EmptyString]
  | String c s' =>
      if Ascii.eqb c sep then EmptyString :: split sep s'
      else match split sep s' with
           | seg :: segs => String c seg :: segs
           | [] => [String c EmptyString]
           end
  end.

(** [xs[i]]: [undefined] out of range. *)
Definition index {A} (xs : list A) (i : nat) : option A := xs !! i.

(** Optional chaining [o?.f]: [undefined] when [o] is. *)
Definition chain {A B} (o : option A) (f : A -> option B) : option B :=
  match o with
  | Some a => f a
  | None => None
  end.

(** [o?.[0]] *)
Definition first {A} (o : option (list A)) : option A :=
  chain o (fun xs => index xs 0).

End Js.

(** ** The message model ([types.ts]) *)

Inductive AgentMode := ORCHESTRATOR | CODER | ARTIST | SPEAKER | ANALYST.

Definition AgentMode_eqb (a b : AgentMode) : bool :=
  match a, b with
  | ORCHESTRATOR, ORCHESTRATOR | CODER, CODER | ARTIST, ARTIST
  | SPEAKER, SPEAKER | ANALYST, ANALYST => true
  | _, _ => false
  end.

Inductive Role := RoleUser | RoleModel | RoleSystem.

Inductive MessageType := TypeText | TypeImage | TypeAudio | TypeCode | TypeError.

Record WebSource := { uri : string; title : string }.

Record Metadata := {
  imageUrl : option string;
  audioData : option string;
  codeLanguage : option string;
  thinking : option bool;
  webSources : option (list WebSource)
}.

Record Message := {
  msg_id : string;
  msg_role : Role;
  msg_content : string;
  msg_type : MessageType;
  msg_timestamp : Z;
  msg_metadata : option Metadata
}.

(** [Partial<Message>]: every field may be missing. *)
Record PartialMessage := {
  id : option string;
  role : option Role;
  content : option string;
  type : option MessageType;
  timestamp : option Z;
  metadata : option Metadata
}.

(** ** The remote service's interface

    The records below carry the fields of the [@google/genai] request and
    response objects that the service writes or reads, each optional where
    the client library declares it optional. *)

Record Blob := { mimeType : option string; data : option string }.

Record Part := { text : option string; inlineData : option Blob }.

Record Content := { parts : option (list Part) }.

Record Web := { web_uri : option string; web_title : option string }.

Record GroundingChunk := { web : option Web }.

Record GroundingMetadata := { groundingChunks : option (list GroundingChunk) }.

Record Candidate := {
  cand_content : option Content;
  groundingMetadata : option GroundingMetadata
}.

(** A structured action request. Its arguments are an untyped object in the
    source ([call.args as any]); every declared parameter has type
    [Type.STRING], so the object is a map from property names to strings,
    and reading a property that is not there gives [undefined]. *)
Record FunctionCall := {
  name : option string;
  args : option (gmap string string)
}.

Record GenerateContentResponse := {
  resp_text : option string;
  functionCalls : option (list FunctionCall);
  candidates : option (list Candidate)
}.

Inductive SchemaType := OBJECT | STRING.

Record PropertySchema := { prop_type : SchemaType; prop_description : string }.

Record Schema := {
  schema_type : SchemaType;
  properties : list (string * PropertySchema);
  required : list string
}.

Record FunctionDeclaration := {
  decl_name : string;
  decl_description : string;
  parameters : Schema
}.

(** A tool is a list of callable actions or the live-search capability
    ([{ googleSearch: {} }]). *)
Record Tool := {
  functionDeclarations : option (list FunctionDeclaration);
  googleSearch : option unit
}.

Inductive Modality := MODALITY_UNSPECIFIED | TEXT | IMAGE | AUDIO.

Record PrebuiltVoiceConfig := { voiceName : string }.

Record VoiceConfig := { prebuiltVoiceConfig : PrebuiltVoiceConfig }.

Record SpeechConfig := { voiceConfig : VoiceConfig }.

Record ThinkingConfig := { thinkingBudget : Z }.

Record Config := {
  tools : option (list Tool);
  systemInstruction : option string;
  thinkingConfig : option ThinkingConfig;
  responseModalities : option (list Modality);
  speechConfig : option SpeechConfig
}.

(** [contents] is either a bare string (possibly [undefined] when it comes
    from an action's arguments) or an object [{ parts }]. *)
Inductive Contents :=
| ContentsString (s : option string)
| ContentsParts (ps : list Part).

Record Request := {
  req_model : string;
  req_contents : Contents;
  req_config : option Config
}.

(** ** Tool definitions for the orchestrator *)

Definition orchestratorTools : list Tool :=
  [ {| functionDeclarations := Some
         [ {| decl_name := "dispatch_create_image";
              decl_description := "Routes the request to the Artist Agent to generate an image. Use this when the user asks to draw, paint, or create a picture.";
              parameters :=
                {| schema_type := OBJECT;
                   properties :=
                     [("prompt", {| prop_type := STRING;
                                    prop_description := "The detailed visual description of the image to generate." |})];
                   required := ["prompt"] |} |};
           {| decl_name := "dispatch_speak_text";
              decl_description := "Routes the request to the Speaker Agent to convert text to audio. Use this when the user explicitly asks to 'say', 'speak', or 'read aloud' something.";
              parameters :=
                {| schema_type := OBJECT;
                   properties :=
                     [("text", {| prop_type := STRING;
                                  prop_description := "The text to be spoken." |})];
                   required := ["text"] |} |};
           {| decl_name := "dispatch_write_code";
              decl_description := "Routes the request to the Expert Coder Agent. Use this for complex programming tasks, debugging, or writing complete scripts.";
              parameters :=
                {| schema_type := OBJECT;
                   properties :=
                     [("task_description", {| prop_type := STRING;
                                              prop_description := "The description of the coding task." |})];
                   required := ["task_description"] |} |} ];
       googleSearch := None |};
    {| functionDeclarations := None; googleSearch := Some tt |} ].

(** The system instruction of the decision request: a template literal
    that spans seven source lines, line breaks and indentation included. *)
Definition newline : string := String (ascii_of_nat 10) EmptyString.

Definition orchestratorInstruction : string :=
  "You are Nexus, an intelligent orchestration hub. " +:+ newline +:+
  "      Your job is to ROUTE the user's request to the correct specialized agent using the available tools." +:+ newline +:+
  "      - If the user wants an image, call 'dispatch_create_image'." +:+ newline +:+
  "      - If the user wants code, call 'dispatch_write_code'." +:+ newline +:+
  "      - If the user wants speech, call 'dispatch_speak_text'." +:+ newline +:+
  "      - If the user asks for real-time information, news, or facts, use the built-in Google Search." +:+ newline +:+
  "      - Otherwise, answer the query directly using your own knowledge.".

(** ** Computations: world state, thrown values and the event trace *)

(** A thrown value, seen through the one property the program reads from
    it: [error.message], absent on a value that is not an [Error]. Thrown
    values are objects or primitives other than [null] and [undefined]:
    the client library rejects with [Error] objects, and so do the
    program's own [throw] and the engine's [TypeError]. *)
Record Thrown := { message : option string }.

Inductive Outcome (A : Type) :=
| Returned (a : A)
| Threw (e : Thrown).

Arguments Returned {A} a.
Arguments Threw {A} e.

(** Function entries, recorded in the trace so that "which handler runs,
    with which arguments" is a statement about a run. *)
Inductive Call :=
| CallRunOrchestrator (prompt : string) (history : list Message)
                      (imageAttachment : option string)
| CallGenerateText (prompt : string) (history : list Message)
| CallGenerateCode (prompt : option string) (history : list Message)
| CallGenerateImage (prompt : option string)
| CallGenerateSpeech (prompt : option string)
| CallAnalyzeContent (prompt : string) (history : list Message)
                     (imageBase64 : option string).

Inductive Event :=
| EvCall (c : Call)
| EvRequest (r : Request)
| EvConsoleLog (line : string)
| EvConsoleError (label : string) (e : Thrown).

(** ** Reading a response *)

(** [response.candidates?.[0]?.content?.parts] *)
Definition first_parts (response : GenerateContentResponse)
  : option (list Part) :=
  Js.chain (Js.chain (Js.first (candidates response)) cand_content) parts.

(** [response.candidates?.[0]?.groundingMetadata?.groundingChunks] *)
Definition first_chunks (response : GenerateContentResponse)
  : option (list GroundingChunk) :=
  Js.chain (Js.chain (Js.first (candidates response)) groundingMetadata)
           groundingChunks.

(** [parts?.[0]?.inlineData?.data], with [parts] those of the first
    candidate. *)
Definition audio_payload (response : GenerateContentResponse)
  : option string :=
  Js.chain (Js.chain (Js.first (first_parts response)) inlineData) data.

(** ** Observations on a run *)

(** The functions entered, in order. *)
Definition calls_of (tr : list Event) : list Call :=
  omap (fun ev => match ev with EvCall c => Some c | _ => None end) tr.

(** The remote requests issued, in order. *)
Definition requests_of (tr : list Event) : list Request :=
  omap (fun ev => match ev with EvRequest r => Some r | _ => None end) tr.

(** An intent-detection request is one that offers tools to the model. *)
Definition is_decision (r : Request) : bool :=
  match req_config r with
  | Some c => bool_decide (is_Some (tools c))
  | None => false
  end.

Definition is_router_call (c : Call) : bool :=
  match c with
  | CallRunOrchestrator _ _ _ => true
  | _ => false
  end.

(** The error message built by the [catch] block. *)
Definition errorMessage (e : Thrown) (t : Z) : PartialMessage :=
  {| id := None;
     role := Some RoleModel;
     type := Some TypeError;
     content := Some ("System Error: " +:+
                      Js.or_else (message e) "Unknown error occurred.");
     timestamp := Some t;
     metadata := None |}.

(** ** Vocabulary of the specification *)

(** What a response part contributes to an image answer: the data URI built
    from its inline payload, or else its text when it has some. *)
Definition inline_url (p : Part) : option string :=
  match inlineData p with
  | Some blob => Some ("data:image/png;base64," +:+ Js.template (data blob))
  | None => None
  end.

Definition caption_of (p : Part) : option string :=
  match inlineData p with
  | Some _ => None
  | None => if Js.truthy (text p) then text p else None
  end.

Definition response_parts (response : GenerateContentResponse) : list Part :=
  default [] (first_parts response).

(** The inline image payload a response carries, as a data URI, and the
    caption that accompanies it: the last of each kind wins. *)
Definition inline_image_url (response : GenerateContentResponse)
  : option string :=
  last (omap inline_url (response_parts response)).

Definition accompanying_caption (response : GenerateContentResponse)
  : option string :=
  last (omap caption_of (response_parts response)).

(** The two answers of the image handler. *)
Definition imageMessage (caption url : string) (t : Z) : PartialMessage :=
  {| id := None;
     role := Some RoleModel;
     type := Some TypeImage;
     content := Some caption;
     timestamp := Some t;
     metadata := Some
       {| imageUrl := Some url; audioData := None; codeLanguage := None;
          thinking := None; webSources := None |} |}.

Definition imageFailure (t : Z) : PartialMessage :=
  {| id := None;
     role := Some RoleModel;
     type := Some TypeText;
     content := Some "I couldn't generate an image. Please try a different prompt.";
     timestamp := Some t;
     metadata := None |}.

(** The router's own answer: text, with the web sources it collected. *)
Definition textAnswer (answer : string) (sources : option (list WebSource))
    (t : Z) : PartialMessage :=
  {| id := None;
     role := Some RoleModel;
     type := Some TypeText;
     content := Some answer;
     timestamp := Some t;
     metadata := Some
       {| imageUrl := None; audioData := None; codeLanguage := None;
          thinking := None; webSources := sources |} |}.

(** The answer of the vision-analysis handler. *)
Definition analysisMessage (answer : string) (t : Z) : PartialMessage :=
  {| id := None;
     role := Some RoleModel;
     type := Some TypeText;
     content := Some answer;
     timestamp := Some t;
     metadata := None |}.

(** Grounding citations: the chunks that have a [web] entry, in order. *)
Definition citations (chunks : list GroundingChunk) : list Web :=
  omap web chunks.

(** A citation as a web source: the title is [Source] when absent or
    empty, the uri is empty when absent. *)
Definition normalize_citation (w : Web) : WebSource :=
  {| uri := default "" (web_uri w);
     title := match web_title w with
              | Some t => if decide (t = "") then "Source" else t
              | None => "Source"
              end |}.

(** The response carries no action request. *)
Definition no_action (response : GenerateContentResponse) : Prop :=
  functionCalls response = None \/ functionCalls response = Some [].

(** The same response with other action requests. *)
Definition with_calls (response : GenerateContentResponse)
    (calls : list FunctionCall) : GenerateContentResponse :=
  {| resp_text := resp_text response;
     functionCalls := Some calls;
     candidates := candidates response |}.

(** The text of a string up to its first comma, and the text after it
    ([None] when the string has no comma). *)
Fixpoint before_comma (s : string) : string :=
  match s with
  | EmptyString => EmptyString
  | String c s' =>
      if Ascii.eqb c "," then EmptyString else String c (before_comma s')
  end.

Fixpoint after_first_comma (s : string) : option string :=
  match s with
  | EmptyString => None
  | String c s' => if Ascii.eqb c "," then Some s' else after_first_comma s'
  end.

(** The image payload a request forwards: the data of the inline part that
    leads its contents. *)
Definition forwarded_image (r : Request) : option string :=
  match req_contents r with
  | ContentsParts (p :: _) => Js.chain (inlineData p) data
  | _ => None
  end.

(** ** Further observations on a run and on a message *)

(** Entries of the specialized handlers the entry point can reach. *)
Definition is_handler_call (c : Call) : bool :=
  match c with
  | CallGenerateCode _ _ | CallGenerateImage _ | CallGenerateSpeech _
  | CallAnalyzeContent _ _ _ => true
  | _ => false
  end.

Definition is_text_call (c : Call) : bool :=
  match c with
  | CallGenerateText _ _ => true
  | _ => false
  end.

(** A trace without its function entries: the requests issued and the
    console output, which is all the outside can see of a run. *)
Definition without_calls (tr : list Event) : list Event :=
  List.filter (fun ev => match ev with EvCall _ => false | _ => true end) tr.

(** The shape of a message of the service: no id, the model's role, some
    content, a timestamp, and the metadata that goes with the type and
    nothing else (an image URL that is a PNG data URI, some audio data, the
    language tag, web sources that are not an empty list). *)
Definition well_formed (m : PartialMessage) : bool :=
  match id m, role m, timestamp m with
  | None, Some RoleModel, Some _ =>
      Js.truthy (content m) &&
      match type m, metadata m with
      | Some TypeText, None => true
      | Some TypeText,
        Some {| imageUrl := None; audioData := None; codeLanguage := None;
                thinking := None; webSources := sources |} =>
          match sources with
          | Some [] => false
          | _ => true
          end
      | Some TypeImage,
        Some {| imageUrl := Some url; audioData := None; codeLanguage := None;
                thinking := None; webSources := None |} =>
          String.prefix "data:image/png;base64," url
      | Some TypeAudio,
        Some {| imageUrl := None; audioData := Some payload;
                codeLanguage := None; thinking := None; webSources := None |} =>
          Js.truthy (Some payload)
      | Some TypeCode,
        Some {| imageUrl := None; audioData := None; codeLanguage := Some tag;
                thinking := None; webSources := None |} =>
          String.eqb tag "typescript"
      | Some TypeError, None => true
      | _, _ => false
      end
  | _, _, _ => false
  end.

(** The answers of the code and of the speech handler. *)
Definition codeMessage (code : string) (t : Z) : PartialMessage :=
  {| id := None;
     role := Some RoleModel;
     type := Some TypeCode;
     content := Some code;
     timestamp := Some t;
     metadata := Some
       {| imageUrl := None; audioData := None;
          codeLanguage := Some "typescript";
          thinking := None; webSources := None |} |}.


(** The names the router acts on. *)
Definition known_actions : list string :=
  ["dispatch_create_image"; "dispatch_speak_text"; "dispatch_write_code"].

(** ** The chat component and the message bubble

    [App] keeps the mode, the transcript, the text being typed, the loading
    flag and the attachment in React state; [MessageBubble] turns one
    message into markup. What follows is their data and their pure parts. *)

Module JsText.

(** [n.toString()] for an integer [n]. *)
Definition number_to_string (n : Z) : string :=
  NilZero.string_of_int (Z.to_int n).

(** The one-byte white space and line terminators of ECMAScript: TAB, LF,
    VT, FF, CR and SP. *)
Definition space1 (a : ascii) : bool :=
  let n := nat_of_ascii a in
  ((9 <=? n)%nat && (n <=? 13)%nat) || (n =? 32)%nat.

(** U+00A0, as UTF-8. *)
Definition space2 (a b : ascii) : bool :=
  (nat_of_ascii a =? 194)%nat && (nat_of_ascii b =? 160)%nat.

(** U+1680, U+2000 to U+200A, U+2028, U+2029, U+202F, U+205F, U+3000 and
    U+FEFF, as UTF-8. *)
Definition space3 (a b c : ascii) : bool :=
  let x := nat_of_ascii a in
  let y := nat_of_ascii b in
  let z := nat_of_ascii c in
  ((x =? 225) && (y =? 154) && (z =? 128))%nat
  || ((x =? 226) && (y =? 128)
      && (((128 <=? z) && (z <=? 138)) || (z =? 168) || (z =? 169) || (z =? 175)))%nat
  || ((x =? 226) && (y =? 129) && (z =? 159))%nat
  || ((x =? 227) && (y =? 128) && (z =? 128))%nat
  || ((x =? 239) && (y =? 187) && (z =? 191))%nat.

(** [!s.trim()]: the string is made of white space and line terminators
    only. *)
Fixpoint blank (s : string) : bool :=
  match s with
  | EmptyString => true
  | String a s1 =>
      if space1 a then blank s1
      else
        match s1 with
        | EmptyString => false
        | String b s2 =>
            if space2 a b then blank s2
            else
              match s2 with
              | EmptyString => false
              | String c s3 => if space3 a b c then blank s3 else false
              end
        end
  end.

End JsText.

Record AppState := {
  app_mode : AgentMode;
  app_messages : list Message;
  app_input : string;
  app_isLoading : bool;
  app_attachment : option string;
  (** [fileInputRef.current.value]; [None] while the input is not mounted *)
  app_fileInput : option string
}.

(** [(!input.trim() && !attachment) || isLoading]: nothing to send. *)
Definition nothing_to_send (s : AppState) : bool :=
  (JsText.blank (app_input s) && negb (Js.truthy (app_attachment s)))
  || app_isLoading s.

(** [userMsg], with the mark appended to its content when there is an
    attachment; [t_id] and [t] are the two readings of the clock. *)
Definition userMessage (t_id t : Z) (input : string)
    (attachment : option string) : Message :=
  {| msg_id := JsText.number_to_string t_id;
     msg_role := RoleUser;
     msg_content :=
       if Js.truthy attachment
       then input +:+ newline +:+ "[Attached Image]"
       else input;
     msg_type := TypeText;
     msg_timestamp := t;
     msg_metadata := None |}.

(** [botMsg], made from the result of the service. *)
Definition botMessage (t_id t : Z) (result : PartialMessage) : Message :=
  {| msg_id := JsText.number_to_string (t_id + 1);
     msg_role := RoleModel;
     msg_content := Js.or_else (content result) "...";
     msg_type := default TypeText (type result);
     msg_timestamp := t;
     msg_metadata := metadata result |}.

(** The message of the [catch] block of [handleSendMessage]. *)
Definition failureMessage (t_id t : Z) : Message :=
  {| msg_id := JsText.number_to_string t_id;
     msg_role := RoleModel;
     msg_content := "I encountered an error processing your request.";
     msg_type := TypeError;
     msg_timestamp := t;
     msg_metadata := None |}.

Definition modeLabels (m : AgentMode) : string :=
  match m with
  | ORCHESTRATOR => "Orchestrator Mode: Auto-routing enabled."
  | CODER => "Coder Mode: Optimized for software engineering."
  | ARTIST => "Artist Mode: Image generation enabled."
  | SPEAKER => "Speaker Mode: Text-to-Speech synthesis."
  | ANALYST => "Analyst Mode: Vision and data analysis."
  end.

(** The message [handleModeChange] adds to the transcript. *)
Definition switchMessage (t_id t : Z) (newMode : AgentMode) : Message :=
  {| msg_id := JsText.number_to_string t_id;
     msg_role := RoleSystem;
     msg_content := "Switched to " +:+ modeLabels newMode;
     msg_type := TypeText;
     msg_timestamp := t;
     msg_metadata := None |}.

(** [setMessages(prev => [...prev, m])] *)
Definition push_message (m : Message) (s : AppState) : AppState :=
  {| app_mode := app_mode s;
     app_messages := app_messages s ++ [m];
     app_input := app_input s;
     app_isLoading := app_isLoading s;
     app_attachment := app_attachment s;
     app_fileInput := app_fileInput s |}.

(** The state updates of [handleSendMessage] before it awaits the service:
    the user's message is shown, the input emptied, the loading flag set. *)
Definition sending (userMsg : Message) (s : AppState) : AppState :=
  {| app_mode := app_mode s;
     app_messages := app_messages s ++ [userMsg];
     app_input := "";
     app_isLoading := true;
     app_attachment := app_attachment s;
     app_fileInput := app_fileInput s |}.

(** The [finally] block: the loading flag is reset, the attachment dropped
    and the file input, if mounted, emptied. *)
Definition settled (s : AppState) : AppState :=
  {| app_mode := app_mode s;
     app_messages := app_messages s;
     app_input := app_input s;
     app_isLoading := false;
     app_attachment := None;
     app_fileInput := match app_fileInput s with
                      | Some _ => Some ""
                      | None => None
                      end |}.

(** What [MessageBubble] renders, markup and styling left out: on which
    side the bubble sits, its text, the source links (href and title) when
    that block is rendered, the artifacts of the box under the bubble when
    there is a box, who signs, and the timestamp that is printed. *)
Inductive Artifact :=
| ArtifactImage (src : string)
| ArtifactAudio (base64Data : string)
| ArtifactCode (code : string).

Record Bubble := {
  on_user_side : bool;
  bubble_text : string;
  source_links : option (list (string * string));
  artifact_box : option (list Artifact);
  signature : string;
  printed_time : Z
}.

(** [message.metadata?.field] *)
Definition metadata_field {A} (message : Message) (field : Metadata -> option A)
  : option A :=
  Js.chain (msg_metadata message) field.

Definition MessageBubble (message : Message) : Bubble :=
  let isUser := match msg_role message with RoleUser => true | _ => false end in
  {| on_user_side := isUser;
     bubble_text := msg_content message;
     source_links :=
       match metadata_field message webSources with
       | Some (source :: sources) =>
           Some (map (fun src => (uri src, title src)) (source :: sources))
       | _ => None
       end;
     artifact_box :=
       match msg_type message with
       | TypeText => None
       | ty =>
           Some
             ((match ty, metadata_field message imageUrl with
               | TypeImage, Some (String c u) => [ArtifactImage (String c u)]
               | _, _ => []
               end) ++
              (match ty, metadata_field message audioData with
               | TypeAudio, Some (String c d) => [ArtifactAudio (String c d)]
               | _, _ => []
               end) ++
              (match ty with
               | TypeCode => [ArtifactCode (msg_content message)]
               | _ => []
               end))
       end;
     signature := match msg_role message with
                  | RoleModel => "Nexus AI"
                  | _ => "You"
                  end;
     printed_time := msg_timestamp message |}.

(** What the bubble of a message of the service has to show for its type:
    nothing under a text, one image, one player or one block of code, and
    an empty box under an error. *)
Definition shows (b : Bubble) (m : PartialMessage) : Prop :=
  match type m with
  | Some TypeText => artifact_box b = None
  | Some TypeImage =>
      exists url, Js.chain (metadata m) imageUrl = Some url
                  /\ artifact_box b = Some [ArtifactImage url]
  | Some TypeAudio =>
      exists payload, Js.chain (metadata m) audioData = Some payload
                      /\ artifact_box b = Some [ArtifactAudio payload]
  | Some TypeCode =>
      exists code, content m = Some code
                   /\ artifact_box b = Some [ArtifactCode code]
  | Some TypeError => artifact_box b = Some []
  | None => False
  end.

(** The actions offered to the model: the function declarations of the
    tools. *)
Definition declared_actions : list FunctionDeclaration :=
  concat (omap functionDeclarations orchestratorTools).

(** The argument a function was entered with, and the text a request
    carries: its contents when they are a string, the text of its last
    part otherwise. *)
Definition handler_argument (c : Call) : option string :=
  match c with
  | CallGenerateCode prompt _ | CallGenerateImage prompt
  | CallGenerateSpeech prompt => prompt
  | CallRunOrchestrator prompt _ _ | CallGenerateText prompt _
  | CallAnalyzeContent prompt _ _ => Some prompt
  end.

Definition request_text (r : Request) : option string :=
  match req_contents r with
  | ContentsString s => s
  | ContentsParts ps => Js.chain (last ps) text
  end.

(** ** Test doubles

    A remote service that answers from a fixed function of the request;
    the world is a clock in milliseconds that every remote call advances. *)

Module Fake.

Definition service (answer : Request -> Outcome GenerateContentResponse)
  : Request -> Z -> Outcome GenerateContentResponse * Z :=
  fun r t => (answer r, t + 1).

Definition clock (t : Z) : Z * Z := (t, t).

Definition candidate (ps : list Part) (chunks : option (list GroundingChunk))
  : Candidate :=
  {| cand_content := Some {| parts := Some ps |};
     groundingMetadata :=
       match chunks with
       | Some cs => Some {| groundingChunks := Some cs |}
       | None => None
       end |}.

Definition text_part (t : string) : Part :=
  {| text := Some t; inlineData := None |}.

Definition inline_part (mime payload : string) : Part :=
  {| text := None;
     inlineData := Some {| mimeType := Some mime; data := Some payload |} |}.

(** A response that is only text. *)
Definition plain (t : string) : GenerateContentResponse :=
  {| resp_text := Some t; functionCalls := None;
     candidates := Some [candidate [text_part t] None] |}.

(** A response with nothing in it. *)
Definition silent : GenerateContentResponse :=
  {| resp_text := None; functionCalls := None;
     candidates := Some [candidate [] None] |}.

Definition fox_image : GenerateContentResponse :=
  {| resp_text := Some "A red fox."; functionCalls := None;
     candidates :=
       Some [candidate [text_part "A red fox.";
                        inline_part "image/png" "iVBORw0KGgo="] None] |}.

Definition grounded : GenerateContentResponse :=
  {| resp_text := Some "Sunny, 21 degrees."; functionCalls := None;
     candidates :=
       Some [candidate [text_part "Sunny, 21 degrees."]
               (Some [ {| web := Some {| web_uri := Some "https://a";
                                         web_title := Some "" |} |} ])] |}.

Definition draw_fox : FunctionCall :=
  {| name := Some "dispatch_create_image";
     args := Some {[ "prompt" := "a red fox" ]} |}.

Definition say_hello : FunctionCall :=
  {| name := Some "dispatch_speak_text";
     args := Some {[ "text" := "hello" ]} |}.

Definition actions (calls : list FunctionCall) : GenerateContentResponse :=
  {| resp_text := None; functionCalls := Some calls;
     candidates := Some [candidate [] None] |}.

(** The router is told [calls]; every handler gets [fox_image]. *)
Definition routing (calls : list FunctionCall)
  : Request -> Outcome GenerateContentResponse :=
  fun r => if is_decision r then Returned (actions calls)
           else Returned fox_image.

Definition always (response : GenerateContentResponse)
  : Request -> Outcome GenerateContentResponse :=
  fun _ => Returned response.

Definition failing (why : string)
  : Request -> Outcome GenerateContentResponse :=
  fun _ => Threw {| message := Some why |}.

End Fake.

(** More of them: actions the router cannot act on, a spoken answer, and
    states of the chat component. *)
Module Scene.

Definition translate : FunctionCall :=
  {| name := Some "dispatch_translate";
     args := Some {[ "text" := "bonjour" ]} |}.

Definition draw_nothing : FunctionCall :=
  {| name := Some "dispatch_create_image"; args := None |}.


(** The component with [typed] in its input, in mode [m]. *)
Definition typing (m : AgentMode) (typed : string) (att : option string)
  : AppState :=
  {| app_mode := m;
     app_messages := [];
     app_input := typed;
     app_isLoading := false;
     app_attachment := att;
     app_fileInput := Some "fox.png" |}.

End Scene.

Section Service.

(** The world outside the program: the remote service and the clock. *)
Context {W : Type}.

(** [ai.models.generateContent(request)], awaited: the response, or the
    value the promise was rejected with. *)
Variable ai_generateContent :
  Request -> W -> Outcome GenerateContentResponse * W.

(** [Date.now()]. *)
Variable Date_now : W -> Z * W.

Record State := { world : W; trace : list Event }.

Definition M (A : Type) : Type := State -> Outcome A * State.

Definition ret {A} (a : A) : M A := fun st => (Returned a, st).

Definition throw {A} (e : Thrown) : M A := fun st => (Threw e, st).

Definition bind {A B} (m : M A) (k : A -> M B) : M B :=
  fun st =>
    match m st with
    | (Returned a, st') => k a st'
    | (Threw e, st') => (Threw e, st')
    end.

(** [try { body } catch (error) { handler }]. *)
Definition try_catch {A} (body : M A) (handler : Thrown -> M A) : M A :=
  fun st =>
    match body st with
    | (Returned a, st') => (Returned a, st')
    | (Threw e, st') => handler e st'
    end.

Definition emit (ev : Event) : M unit :=
  fun st => (Returned tt, {| world := world st; trace := trace st ++ [ev] |}).

Definition enter (c : Call) : M unit := emit (EvCall c).

Definition console_log (line : string) : M unit := emit (EvConsoleLog line).

Definition console_error (label : string) (e : Thrown) : M unit :=
  emit (EvConsoleError label e).

Definition now : M Z :=
  fun st =>
    let r := Date_now (world st) in
    (Returned (fst r), {| world := snd r; trace := trace st |}).

(** One remote call: the request is recorded, then awaited. *)
Definition generateContent (r : Request) : M GenerateContentResponse :=
  fun st =>
    let o := ai_generateContent r (world st) in
    (fst o, {| world := snd o; trace := trace st ++ [EvRequest r] |}).

Notation "'let*' x ':=' c1 'in' c2" := (bind c1 (fun x => c2))
  (at level 10, x name, c1 at level 100, c2 at level 200).
Notation "c1 ';;' c2" := (bind c1 (fun _ => c2))
  (at level 100, c2 at level 200, right associativity).

(** *** Specialized agent functions *)

Definition textRequest (prompt : string) : Request :=
  {| req_model := "gemini-2.5-flash";
     req_contents := ContentsString (Some prompt);
     req_config := None |}.

Definition generateText (prompt : string) (history : list Message)
  : M PartialMessage :=
  enter (CallGenerateText prompt history) ;;
  let* response := generateContent (textRequest prompt) in
  let* t := now in
  ret {| id := None;
         role := Some RoleModel;
         type := Some TypeText;
         content := Some (Js.or_else (resp_text response) "No response text.");
         timestamp := Some t;
         metadata := None |}.

Definition codeRequest (prompt : option string) : Request :=
  {| req_model := "gemini-3-pro-preview";
     req_contents := ContentsString prompt;
     req_config := Some
       {| tools := None;
          systemInstruction := Some "You are an expert Senior Software Engineer. Write clean, efficient, and well-documented code.";
          thinkingConfig := Some {| thinkingBudget := 2048 |};
          responseModalities := None;
          speechConfig := None |} |}.

Definition generateCode (prompt : option string) (history : list Message)
  : M PartialMessage :=
  enter (CallGenerateCode prompt history) ;;
  let* response := generateContent (codeRequest prompt) in
  let* t := now in
  ret {| id := None;
         role := Some RoleModel;
         type := Some TypeCode;
         content := Some (Js.or_else (resp_text response) "// No code generated");
         timestamp := Some t;
         metadata := Some
           {| imageUrl := None; audioData := None;
              codeLanguage := Some "typescript";
              thinking := None; webSources := None |} |}.

Definition imageRequest (prompt : option string) : Request :=
  {| req_model := "gemini-2.5-flash-image";
     req_contents := ContentsString prompt;
     req_config := None |}.

(** One iteration of the loop over the parts: the pair is
    [(imageUrl, text)]. *)
Definition image_step (acc : string * string) (part : Part)
  : string * string :=
  match inlineData part with
  | Some blob => ("data:image/png;base64," +:+ Js.template (data blob), snd acc)
  | None =>
      match text part with
      | Some t => if Js.truthy (Some t) then (fst acc, t) else acc
      | None => acc
      end
  end.

Definition image_scan (ps : option (list Part)) : string * string :=
  match ps with
  | Some l => fold_left image_step l ("", "")
  | None => ("", "")
  end.

Definition generateImage (prompt : option string) : M PartialMessage :=
  enter (CallGenerateImage prompt) ;;
  let* response := generateContent (imageRequest prompt) in
  let scanned := image_scan (first_parts response) in
  if negb (Js.truthy (Some (fst scanned))) then
    let* t := now in
    ret {| id := None;
           role := Some RoleModel;
           type := Some TypeText;
           content := Some "I couldn't generate an image. Please try a different prompt.";
           timestamp := Some t;
           metadata := None |}
  else
    let* t := now in
    ret {| id := None;
           role := Some RoleModel;
           type := Some TypeImage;
           content := Some (Js.or_else (Some (snd scanned))
                              ("Generated: " +:+ Js.template prompt));
           timestamp := Some t;
           metadata := Some
             {| imageUrl := Some (fst scanned); audioData := None;
                codeLanguage := None; thinking := None;
                webSources := None |} |}.

Definition speechRequest (prompt : option string) : Request :=
  {| req_model := "gemini-2.5-flash-preview-tts";
     req_contents := ContentsParts [ {| text := prompt; inlineData := None |} ];
     req_config := Some
       {| tools := None;
          systemInstruction := None;
          thinkingConfig := None;
          responseModalities := Some [AUDIO];
          speechConfig := Some
            {| voiceConfig :=
                 {| prebuiltVoiceConfig := {| voiceName := "Kore" |} |} |} |} |}.

Definition generateSpeech (prompt : option string) : M PartialMessage :=
  enter (CallGenerateSpeech prompt) ;;
  let* response := generateContent (speechRequest prompt) in
  let audio := audio_payload response in
  if negb (Js.truthy audio) then
    throw {| message := Some "Audio data missing in response" |}
  else
    let* t := now in
    ret {| id := None;
           role := Some RoleModel;
           type := Some TypeAudio;
           content := Some "Audio output generated.";
           timestamp := Some t;
           metadata := Some
             {| imageUrl := None; audioData := audio;
                codeLanguage := None; thinking := None;
                webSources := None |} |}.

(** The parts of the analysis request: the text, with the image put in
    front of it when there is one. *)
Definition analysisParts (prompt : string) (imageBase64 : option string)
  : list Part :=
  let parts0 := [ {| text := Some prompt; inlineData := None |} ] in
  match imageBase64 with
  | Some (String c s) =>
      let base64Data := Js.index (Js.split "," (String c s)) 1 in
      {| text := None;
         inlineData := Some {| mimeType := Some "image/png";
                               data := base64Data |} |} :: parts0
  | _ => parts0
  end.

Definition analysisRequest (prompt : string) (imageBase64 : option string)
  : Request :=
  {| req_model := "gemini-2.5-flash";
     req_contents := ContentsParts (analysisParts prompt imageBase64);
     req_config := Some
       {| tools := None;
          systemInstruction := Some "You are a visual data analyst. Analyze the provided image/data and the text request.";
          thinkingConfig := None;
          responseModalities := None;
          speechConfig := None |} |}.

Definition analyzeContent (prompt : string) (history : list Message)
    (imageBase64 : option string) : M PartialMessage :=
  enter (CallAnalyzeContent prompt history imageBase64) ;;
  let* response := generateContent (analysisRequest prompt imageBase64) in
  let* t := now in
  ret {| id := None;
         role := Some RoleModel;
         type := Some TypeText;
         content := Some (Js.or_else (resp_text response) "Analysis complete.");
         timestamp := Some t;
         metadata := None |}.

(** *** The hub: intent detection and routing *)

Definition decisionRequest (prompt : string) : Request :=
  {| req_model := "gemini-2.5-flash";
     req_contents := ContentsString (Some prompt);
     req_config := Some
       {| tools := Some orchestratorTools;
          systemInstruction := Some orchestratorInstruction;
          thinkingConfig := None;
          responseModalities := None;
          speechConfig := None |} |}.

(** [call.name === n] *)
Definition name_is (call : FunctionCall) (n : string) : bool :=
  match name call with
  | Some s => String.eqb s n
  | None => false
  end.

(** [args.key] with [args = call.args as any]: reading a property of
    [undefined] throws a [TypeError]. *)
Definition read_arg (call : FunctionCall) (key : string)
  : M (option string) :=
  match args call with
  | Some o => ret (o !! key)
  | None =>
      throw {| message := Some
                 ("Cannot read properties of undefined (reading '"
                  +:+ key +:+ "')") |}
  end.

(** The body of [groundingChunks.forEach]: a chunk with a [web] entry
    pushes one source. *)
Definition push_source (webSources : list WebSource) (chunk : GroundingChunk)
  : list WebSource :=
  match web chunk with
  | Some w =>
      webSources ++ [ {| uri := Js.or_else (web_uri w) "";
                         title := Js.or_else (web_title w) "Source" |} ]
  | None => webSources
  end.

Definition collectSources (response : GenerateContentResponse)
  : list WebSource :=
  match first_chunks response with
  | Some chunks => fold_left push_source chunks []
  | None => []
  end.

(** Step 2 of [runOrchestrator]: the text response with its grounding. *)
Definition answerDirectly (response : GenerateContentResponse)
  : M PartialMessage :=
  let text := Js.or_else (resp_text response) "I processed that request." in
  let webSources := collectSources response in
  let* t := now in
  ret {| id := None;
         role := Some RoleModel;
         type := Some TypeText;
         content := Some text;
         timestamp := Some t;
         metadata := Some
           {| imageUrl := None; audioData := None; codeLanguage := None;
              thinking := None;
              webSources := if (0 <? length webSources)%nat
                            then Some webSources else None |} |}.

Definition runOrchestrator (prompt : string) (history : list Message)
    (imageAttachment : option string) : M PartialMessage :=
  enter (CallRunOrchestrator prompt history imageAttachment) ;;
  if Js.truthy imageAttachment then
    analyzeContent prompt history imageAttachment
  else
    let* response := generateContent (decisionRequest prompt) in
    match functionCalls response with
    | Some (call :: _) =>
        console_log ("[Orchestrator] Routing to: " +:+ Js.template (name call)) ;;
        if name_is call "dispatch_create_image" then
          let* a := read_arg call "prompt" in generateImage a
        else if name_is call "dispatch_speak_text" then
          let* a := read_arg call "text" in generateSpeech a
        else if name_is call "dispatch_write_code" then
          let* a := read_arg call "task_description" in generateCode a history
        else answerDirectly response
    | _ => answerDirectly response
    end.

(** *** The entry point *)

(** The [catch] block of [generateResponse]. *)
Definition on_error (error : Thrown) : M PartialMessage :=
  console_error "Gemini API Error:" error ;;
  let* t := now in
  ret {| id := None;
         role := Some RoleModel;
         type := Some TypeError;
         content := Some ("System Error: " +:+
                          Js.or_else (message error) "Unknown error occurred.");
         timestamp := Some t;
         metadata := None |}.

Definition generateResponse (prompt : string) (mode : AgentMode)
    (history : list Message) (imageAttachment : option string)
  : M PartialMessage :=
  try_catch
    (if AgentMode_eqb mode ORCHESTRATOR then
       runOrchestrator prompt history imageAttachment
     else
       match mode with
       | ARTIST => generateImage (Some prompt)
       | SPEAKER => generateSpeech (Some prompt)
       | CODER => generateCode (Some prompt) history
       | ANALYST => analyzeContent prompt history imageAttachment
       | _ => runOrchestrator prompt history imageAttachment
       end)
    on_error.

(** Every message a computation returns is the model's. *)
Definition answers_as_model (m : M PartialMessage) : Prop :=
  forall st x st', m st = (Returned x, st') -> role x = Some RoleModel.

(** The dispatch table in the words of the specification: the handler
    bound to a mode, and the entry it makes in the trace. *)
Definition bound_handler (mode : AgentMode) (prompt : string)
    (history : list Message) (attachment : option string)
  : M PartialMessage :=
  match mode with
  | ORCHESTRATOR => runOrchestrator prompt history attachment
  | ARTIST => generateImage (Some prompt)
  | SPEAKER => generateSpeech (Some prompt)
  | CODER => generateCode (Some prompt) history
  | ANALYST => analyzeContent prompt history attachment
  end.

Definition bound_call (mode : AgentMode) (prompt : string)
    (history : list Message) (attachment : option string) : Call :=
  match mode with
  | ORCHESTRATOR => CallRunOrchestrator prompt history attachment
  | ARTIST => CallGenerateImage (Some prompt)
  | SPEAKER => CallGenerateSpeech (Some prompt)
  | CODER => CallGenerateCode (Some prompt) history
  | ANALYST => CallAnalyzeContent prompt history attachment
  end.

Definition bound_request (mode : AgentMode) (prompt : string)
    (attachment : option string) : Request :=
  match mode with
  | ORCHESTRATOR => decisionRequest prompt
  | ARTIST => imageRequest (Some prompt)
  | SPEAKER => speechRequest (Some prompt)
  | CODER => codeRequest (Some prompt)
  | ANALYST => analysisRequest prompt attachment
  end.

(** A run that starts in world [w] with nothing recorded yet. *)
Definition initial (w : W) : State := {| world := w; trace := [] |}.

(** The state in which a routed handler starts: the decision has been
    awaited and the routing logged. *)
Definition routed_state (prompt : string) (history : list Message)
    (att : option string) (st : State) (w' : W) (call : FunctionCall)
  : State :=
  {| world := w';
     trace := trace st ++
       [EvCall (CallRunOrchestrator prompt history att);
        EvRequest (decisionRequest prompt);
        EvConsoleLog ("[Orchestrator] Routing to: " +:+ Js.template (name call))] |}.

(** The state a handler ends in when its one request was answered in
    world [w'] and it read the clock once to stamp its message. *)
Definition answered_state (st : State) (c : Call) (r : Request) (w' : W)
  : State :=
  {| world := snd (Date_now w');
     trace := trace st ++ [EvCall c; EvRequest r] |}.

(** Acting on one action request, in the words of the specification: the
    handler that matches its name is given its declared argument, and the
    code handler the history as well; [otherwise] is what happens when no
    handler matches. *)
Definition act_on_first (history : list Message) (call : FunctionCall)
    (otherwise : M PartialMessage) : M PartialMessage :=
  if name_is call "dispatch_create_image" then
    let* a := read_arg call "prompt" in generateImage a
  else if name_is call "dispatch_speak_text" then
    let* a := read_arg call "text" in generateSpeech a
  else if name_is call "dispatch_write_code" then
    let* a := read_arg call "task_description" in generateCode a history
  else otherwise.

(** The action table in the words of the specification: the handler an
    action name maps to, with the one argument it is given, the entry it
    makes in the trace and the request it issues. *)
Definition action_table (history : list Message) (n : string)
    (o : gmap string string) : option (Call * Request * M PartialMessage) :=
  if String.eqb n "dispatch_create_image" then
    Some (CallGenerateImage (o !! "prompt"),
          imageRequest (o !! "prompt"),
          generateImage (o !! "prompt"))
  else if String.eqb n "dispatch_speak_text" then
    Some (CallGenerateSpeech (o !! "text"),
          speechRequest (o !! "text"),
          generateSpeech (o !! "text"))
  else if String.eqb n "dispatch_write_code" then
    Some (CallGenerateCode (o !! "task_description") history,
          codeRequest (o !! "task_description"),
          generateCode (o !! "task_description") history)
  else None.

(** *** The chat component: sending a message, changing the mode *)

(** [handleSendMessage]. The call to the service takes the prompt, the
    mode, the transcript and the attachment as they were when the message
    was sent; the updates after the [await] apply to the state as it is
    then: [meanwhile] is what other events did to it while the request was
    outstanding, the identity when there were none. The [catch] block logs
    the error alone, which the trace records under an empty label. *)
Definition handleSendMessage (meanwhile : AppState -> AppState)
    (s : AppState) : M AppState :=
  if nothing_to_send s then ret s
  else
    let* t1 := now in
    let* t2 := now in
    let userMsg := userMessage t1 t2 (app_input s) (app_attachment s) in
    let* s' :=
      try_catch
        (let* result := generateResponse (msg_content userMsg) (app_mode s)
                          (app_messages s) (app_attachment s) in
         let* t3 := now in
         let* t4 := now in
         ret (push_message (botMessage t3 t4 result)
                           (meanwhile (sending userMsg s))))
        (fun error =>
           console_error "" error ;;
           let* t3 := now in
           let* t4 := now in
           ret (push_message (failureMessage t3 t4)
                             (meanwhile (sending userMsg s)))) in
    ret (settled s').

(** [handleModeChange] *)
Definition handleModeChange (newMode : AgentMode) (s : AppState)
  : M AppState :=
  let* t1 := now in
  let* t2 := now in
  ret {| app_mode := newMode;
         app_messages := app_messages s ++ [switchMessage t1 t2 newMode];
         app_input := app_input s;
         app_isLoading := app_isLoading s;
         app_attachment := app_attachment s;
         app_fileInput := app_fileInput s |}.

(** The reply the chat component makes of the answer [m] that the service
    gave in world [w]: the clock is read twice for it. *)
Definition reply_in (w : W) (m : PartialMessage) : Message :=
  botMessage (fst (Date_now w)) (fst (Date_now (snd (Date_now w)))) m.

(** *** The first request of a turn *)

(** The first request of a turn: in automatic mode the analysis of the
    attachment when there is one and the intent detection otherwise, in a
    manual mode the request of the bound handler. *)
Definition first_request (mode : AgentMode) (prompt : string)
    (attachment : option string) : Request :=
  match mode with
  | ORCHESTRATOR =>
      if Js.truthy attachment then analysisRequest prompt attachment
      else decisionRequest prompt
  | _ => bound_request mode prompt attachment
  end.

(** What a run of the router adds to the trace: the analysis of an
    attachment; the decision alone (rejected, or answered without action);
    the decision and the routing log (no handler for the action, or no
    arguments to read); the decision, the log and one handler with its one
    request. *)
Inductive router_delta (prompt : string) (history : list Message)
    (att : option string) : list Event -> Prop :=
| delta_analysis :
    Js.truthy att = true ->
    router_delta prompt history att
      [EvCall (CallRunOrchestrator prompt history att);
       EvCall (CallAnalyzeContent prompt history att);
       EvRequest (analysisRequest prompt att)]
| delta_decision :
    Js.truthy att = false ->
    router_delta prompt history att
      [EvCall (CallRunOrchestrator prompt history att);
       EvRequest (decisionRequest prompt)]
| delta_logged line :
    Js.truthy att = false ->
    router_delta prompt history att
      [EvCall (CallRunOrchestrator prompt history att);
       EvRequest (decisionRequest prompt);
       EvConsoleLog line]
| delta_routed line c r :
    Js.truthy att = false ->
    is_handler_call c = true ->
    is_decision r = false ->
    router_delta prompt history att
      [EvCall (CallRunOrchestrator prompt history att);
       EvRequest (decisionRequest prompt);
       EvConsoleLog line;
       EvCall c;
       EvRequest r].

(** Two states that the outside cannot tell apart, and two computations
    that keep them so and end alike. *)
Definition same_outside (st1 st2 : State) : Prop :=
  world st1 = world st2
  /\ without_calls (trace st1) = without_calls (trace st2).

Definition alike {A} (m1 m2 : M A) : Prop :=
  forall st1 st2,
    same_outside st1 st2 ->
    fst (m1 st1) = fst (m2 st2)
    /\ same_outside (snd (m1 st1)) (snd (m2 st2)).

(** Every message a computation returns satisfies [P]. *)
Definition answers_with (P : PartialMessage -> Prop) (m : M PartialMessage)
  : Prop :=
  forall st x st', m st = (Returned x, st') -> P x.

Definition shaped (m : PartialMessage) : Prop := well_formed m = true.

(** ** Properties *)

Ltac unfold_ops :=
  unfold bind, ret, throw, try_catch, enter, console_log, console_error,
    emit, now, generateContent.

(** Case analysis on the answer of the remote service. *)
Ltac ask_service :=
  match goal with
  | |- context [ai_generateContent ?r ?w] =>
      let o := fresh "o" in
      let w' := fresh "w" in
      let E := fresh "Eservice" in
      destruct (ai_generateContent r w) as [o w'] eqn:E; destruct o; simpl
  end.

Lemma calls_of_app tr1 tr2 :
  calls_of (tr1 ++ tr2) = calls_of tr1 ++ calls_of tr2.
Proof. apply omap_app. Qed.

Lemma requests_of_app tr1 tr2 :
  requests_of (tr1 ++ tr2) = requests_of tr1 ++ requests_of tr2.
Proof. apply omap_app. Qed.

(** What each handler adds to the trace, whatever the service answers. *)

Lemma generateImage_trace prompt st :
  trace (snd (generateImage prompt st)) =
  trace st ++ [EvCall (CallGenerateImage prompt); EvRequest (imageRequest prompt)].
Proof.
  unfold generateImage; unfold_ops; simpl. ask_service.
  - destruct (negb _); simpl; now rewrite <- app_assoc.
  - now rewrite <- app_assoc.
Qed.

Lemma generateSpeech_trace prompt st :
  trace (snd (generateSpeech prompt st)) =
  trace st ++ [EvCall (CallGenerateSpeech prompt); EvRequest (speechRequest prompt)].
Proof.
  unfold generateSpeech; unfold_ops; simpl. ask_service.
  - destruct (negb _); simpl; now rewrite <- app_assoc.
  - now rewrite <- app_assoc.
Qed.

Lemma generateCode_trace prompt history st :
  trace (snd (generateCode prompt history st)) =
  trace st ++ [EvCall (CallGenerateCode prompt history);
               EvRequest (codeRequest prompt)].
Proof.
  unfold generateCode; unfold_ops; simpl.
  ask_service; now rewrite <- app_assoc.
Qed.

Lemma analyzeContent_trace prompt history att st :
  trace (snd (analyzeContent prompt history att st)) =
  trace st ++ [EvCall (CallAnalyzeContent prompt history att);
               EvRequest (analysisRequest prompt att)].
Proof.
  unfold analyzeContent; unfold_ops; simpl.
  ask_service; now rewrite <- app_assoc.
Qed.

Lemma try_catch_trace (body : M PartialMessage) st :
  trace (snd (try_catch body on_error st)) =
  trace (snd (body st)) ++
  match fst (body st) with
  | Returned _ => []
  | Threw e => [EvConsoleError "Gemini API Error:" e]
  end.
Proof.
  unfold try_catch, on_error; unfold_ops.
  destruct (body st) as [[m | e] st']; simpl.
  - now rewrite app_nil_r.
  - reflexivity.
Qed.

Lemma generateResponse_dispatch prompt mode history att :
  generateResponse prompt mode history att =
  try_catch (bound_handler mode prompt history att) on_error.
Proof. now destruct mode. Qed.

Lemma bound_handler_trace mode prompt history att st :
  mode <> ORCHESTRATOR ->
  trace (snd (bound_handler mode prompt history att st)) =
  trace st ++ [EvCall (bound_call mode prompt history att);
               EvRequest (bound_request mode prompt att)].
Proof.
  destruct mode; simpl; intros Hmode; try congruence.
  - apply generateCode_trace.
  - apply generateImage_trace.
  - apply generateSpeech_trace.
  - apply analyzeContent_trace.
Qed.

Lemma calls_of_console_error tr (o : Outcome PartialMessage) :
  calls_of (tr ++ match o with
                  | Returned _ => []
                  | Threw e => [EvConsoleError "Gemini API Error:" e]
                  end) = calls_of tr.
Proof. rewrite calls_of_app. destruct o; simpl; now rewrite app_nil_r. Qed.

Lemma requests_of_console_error tr (o : Outcome PartialMessage) :
  requests_of (tr ++ match o with
                     | Returned _ => []
                     | Threw e => [EvConsoleError "Gemini API Error:" e]
                     end) = requests_of tr.
Proof. rewrite requests_of_app. destruct o; simpl; now rewrite app_nil_r. Qed.

(** C2: in a manual mode, [generateResponse] runs the handler bound to the
    mode inside its [try] block: that handler is the only function
    entered (so the router is not), its request is the only one issued
    and it is not an intent-detection request, and what the handler
    returns is what [generateResponse] returns. *)
Theorem manual_mode_runs_bound_handler prompt mode history att st :
  mode <> ORCHESTRATOR ->
  generateResponse prompt mode history att st =
    try_catch (bound_handler mode prompt history att) on_error st
  /\ calls_of (trace (snd (generateResponse prompt mode history att st))) =
       calls_of (trace st) ++ [bound_call mode prompt history att]
  /\ is_router_call (bound_call mode prompt history att) = false
  /\ requests_of (trace (snd (generateResponse prompt mode history att st))) =
       requests_of (trace st) ++ [bound_request mode prompt att]
  /\ is_decision (bound_request mode prompt att) = false
  /\ (forall m st',
        bound_handler mode prompt history att st = (Returned m, st') ->
        generateResponse prompt mode history att st = (Returned m, st')).
Proof.
  intros Hmode. rewrite generateResponse_dispatch.
  split; [reflexivity|].
  rewrite try_catch_trace, calls_of_console_error, requests_of_console_error.
  rewrite (bound_handler_trace _ _ _ _ _ Hmode).
  rewrite calls_of_app, requests_of_app. simpl.
  repeat split.
  - now destruct mode.
  - now destruct mode.
  - intros m st' Hrun. unfold try_catch. now rewrite Hrun.
Qed.

Lemma runOrchestrator_attachment prompt history a :
  a <> "" ->
  runOrchestrator prompt history (Some a) =
  (enter (CallRunOrchestrator prompt history (Some a)) ;;
   analyzeContent prompt history (Some a)).
Proof. intros Ha. unfold runOrchestrator. now destruct a. Qed.

(** C3: in automatic mode with an image attached, the router hands the
    prompt, the history and the attachment to [analyzeContent], whatever
    the prompt says; the analysis request is the only request issued and
    it is not an intent-detection request. *)
Theorem attachment_skips_intent_detection prompt history a st :
  a <> "" ->
  runOrchestrator prompt history (Some a) st =
    (enter (CallRunOrchestrator prompt history (Some a)) ;;
     analyzeContent prompt history (Some a)) st
  /\ calls_of (trace (snd (generateResponse prompt ORCHESTRATOR history
                                            (Some a) st))) =
       calls_of (trace st) ++
       [CallRunOrchestrator prompt history (Some a);
        CallAnalyzeContent prompt history (Some a)]
  /\ requests_of (trace (snd (generateResponse prompt ORCHESTRATOR history
                                               (Some a) st))) =
       requests_of (trace st) ++ [analysisRequest prompt (Some a)]
  /\ is_decision (analysisRequest prompt (Some a)) = false.
Proof.
  intros Ha. split; [now rewrite runOrchestrator_attachment|].
  rewrite generateResponse_dispatch. simpl bound_handler.
  rewrite try_catch_trace, calls_of_console_error, requests_of_console_error.
  rewrite (runOrchestrator_attachment _ _ _ Ha).
  unfold bind at 1 2, enter, emit. simpl.
  rewrite analyzeContent_trace. simpl.
  rewrite !calls_of_app, !requests_of_app. simpl.
  rewrite app_nil_r, <- app_assoc. now simpl.
Qed.

(** C9: the code handler does not look at the history: with any two
    histories it issues the same single request, built from the prompt
    alone, leaves the world in the same state and gives the same
    outcome. *)
Theorem generateCode_ignores_history prompt h1 h2 st :
  fst (generateCode prompt h1 st) = fst (generateCode prompt h2 st)
  /\ world (snd (generateCode prompt h1 st)) =
       world (snd (generateCode prompt h2 st))
  /\ requests_of (trace (snd (generateCode prompt h1 st))) =
       requests_of (trace (snd (generateCode prompt h2 st)))
  /\ requests_of (trace (snd (generateCode prompt h1 st))) =
       requests_of (trace st) ++ [codeRequest prompt].
Proof.
  rewrite !generateCode_trace, !requests_of_app. simpl.
  unfold generateCode; unfold_ops; simpl.
  ask_service; auto.
Qed.

Lemma generateSpeech_no_audio prompt st response w' :
  ai_generateContent (speechRequest prompt) (world st) = (Returned response, w') ->
  Js.truthy (audio_payload response) = false ->
  generateSpeech prompt st =
  (Threw {| message := Some "Audio data missing in response" |},
   {| world := w';
      trace := trace st ++ [EvCall (CallGenerateSpeech prompt);
                            EvRequest (speechRequest prompt)] |}).
Proof.
  intros Hsvc Haudio. unfold generateSpeech; unfold_ops; simpl.
  rewrite Hsvc; simpl.   rewrite Haudio; simpl. now rewrite <- app_assoc.
Qed.

(** C4: whatever the dispatched computation throws is caught: the turn
    resolves to a message of type error whose content is the failure's
    message after the prefix [System Error: ] (a fixed description when
    the thrown value has no message). In speaker mode a response without
    an audio payload gives such a message. *)
Theorem failures_become_error_messages prompt mode history att st :
  (forall e st',
      bound_handler mode prompt history att st = (Threw e, st') ->
      generateResponse prompt mode history att st =
      (Returned (errorMessage e (fst (Date_now (world st')))),
       {| world := snd (Date_now (world st'));
          trace := trace st' ++ [EvConsoleError "Gemini API Error:" e] |}))
  /\ (forall response w',
        ai_generateContent (speechRequest (Some prompt)) (world st) =
          (Returned response, w') ->
        Js.truthy (audio_payload response) = false ->
        exists m st',
          generateResponse prompt SPEAKER history att st = (Returned m, st')
          /\ type m = Some TypeError
          /\ content m = Some "System Error: Audio data missing in response").
Proof.
  split.
  - intros e st' Hthrow. rewrite generateResponse_dispatch.
    unfold try_catch. rewrite Hthrow. reflexivity.
  - intros response w' Hsvc Haudio. rewrite generateResponse_dispatch.
    unfold try_catch. simpl bound_handler.
    rewrite (generateSpeech_no_audio _ _ _ _ Hsvc Haudio).
    do 2 eexists. split; [reflexivity|]. now simpl.
Qed.

(** *** Every path resolves *)

Lemma answers_as_model_bind {A} (m : M A) (k : A -> M PartialMessage) :
  (forall a, answers_as_model (k a)) -> answers_as_model (bind m k).
Proof.
  intros Hk st x st'. unfold bind.
  destruct (m st) as [[a | e] st1]; [apply Hk | discriminate].
Qed.

Lemma answers_as_model_ret x :
  role x = Some RoleModel -> answers_as_model (ret x).
Proof. intros Hx st y st' Hret. inversion Hret. now subst. Qed.

Lemma answers_as_model_throw e : answers_as_model (throw e).
Proof. intros st y st' Hret. discriminate. Qed.

Ltac model_steps :=
  repeat first
    [ apply answers_as_model_bind; intros
    | apply answers_as_model_ret; reflexivity
    | apply answers_as_model_throw
    | match goal with
      | |- answers_as_model (if ?c then _ else _) => destruct c
      | |- answers_as_model (match ?c with _ => _ end) => destruct c
      end ].

Lemma generateImage_model prompt : answers_as_model (generateImage prompt).
Proof. unfold generateImage. model_steps. Qed.

Lemma generateSpeech_model prompt : answers_as_model (generateSpeech prompt).
Proof. unfold generateSpeech. model_steps. Qed.

Lemma generateCode_model prompt history :
  answers_as_model (generateCode prompt history).
Proof. unfold generateCode. model_steps. Qed.

Lemma analyzeContent_model prompt history att :
  answers_as_model (analyzeContent prompt history att).
Proof. unfold analyzeContent. model_steps. Qed.

Lemma answerDirectly_model response : answers_as_model (answerDirectly response).
Proof. unfold answerDirectly. model_steps. Qed.

Lemma runOrchestrator_model prompt history att :
  answers_as_model (runOrchestrator prompt history att).
Proof.
  unfold runOrchestrator.
  apply answers_as_model_bind; intros _.
  destruct (Js.truthy att); [apply analyzeContent_model|].
  apply answers_as_model_bind; intros response.
  destruct (functionCalls response) as [[|call rest]|];
    try apply answerDirectly_model.
  apply answers_as_model_bind; intros _.
  repeat match goal with
         | |- answers_as_model (if ?c then _ else _) => destruct c
         end;
    try apply answerDirectly_model;
    apply answers_as_model_bind; intros a;
    auto using generateImage_model, generateSpeech_model, generateCode_model.
Qed.

Lemma bound_handler_model mode prompt history att :
  answers_as_model (bound_handler mode prompt history att).
Proof.
  destruct mode; simpl;
    auto using generateImage_model, generateSpeech_model, generateCode_model,
               analyzeContent_model, runOrchestrator_model.
Qed.

(** C10: [generateResponse] returns on every input and whatever the
    service does: it never throws, and the message it returns has the
    role [model]. *)
Theorem generateResponse_always_resolves prompt mode history att st :
  exists m st',
    generateResponse prompt mode history att st = (Returned m, st')
    /\ role m = Some RoleModel.
Proof.
  rewrite generateResponse_dispatch. unfold try_catch.
  destruct (bound_handler mode prompt history att st) as [[m | e] st1] eqn:Hrun.
  - exists m, st1. split; [reflexivity|].
    eapply bound_handler_model; eassumption.
  - unfold on_error; unfold_ops; simpl. now do 2 eexists.
Qed.

(** *** The image handler *)

Lemma image_step_spec acc p :
  image_step acc p =
  (default (fst acc) (inline_url p), default (snd acc) (caption_of p)).
Proof.
  destruct acc as [u t]. unfold image_step, inline_url, caption_of.
  destruct (inlineData p) as [blob|]; simpl; [reflexivity|].
  now destruct (text p) as [[|c s]|].
Qed.

Lemma default_last_omap_cons {A B} (f : A -> option B) (x : A) (l : list A) d :
  default d (last (omap f (x :: l))) =
  default (default d (f x)) (last (omap f l)).
Proof.
  change (omap f (x :: l))
    with (match f x with Some y => y :: omap f l | None => omap f l end).
  destruct (f x) as [y|]; simpl; [|reflexivity].
  rewrite last_cons. now destruct (last (omap f l)).
Qed.

Lemma image_step_fold l acc :
  fold_left image_step l acc =
  (default (fst acc) (last (omap inline_url l)),
   default (snd acc) (last (omap caption_of l))).
Proof.
  revert acc. induction l as [|p l IH]; intros acc.
  - now destruct acc.
  - change (fold_left image_step (p :: l) acc)
      with (fold_left image_step l (image_step acc p)).
    rewrite IH, image_step_spec, !default_last_omap_cons. reflexivity.
Qed.

Lemma image_scan_spec response :
  image_scan (first_parts response) =
  (default "" (inline_image_url response),
   default "" (accompanying_caption response)).
Proof.
  unfold image_scan, inline_image_url, accompanying_caption, response_parts.
  destruct (first_parts response) as [l|]; simpl; [apply image_step_fold|].
  reflexivity.
Qed.

Lemma inline_url_prefix l url :
  last (omap inline_url l) = Some url ->
  String.prefix "data:image/png;base64," url = true.
Proof.
  intros Hlast. apply last_Some_elem_of, list_elem_of_omap in Hlast.
  destruct Hlast as (p & _ & Hp). unfold inline_url in Hp.
  destruct (inlineData p); [|discriminate].
  inversion Hp. simpl. now destruct (Js.template _).
Qed.

Lemma caption_truthy l c :
  last (omap caption_of l) = Some c -> Js.truthy (Some c) = true.
Proof.
  intros Hlast. apply last_Some_elem_of, list_elem_of_omap in Hlast.
  destruct Hlast as (p & _ & Hp). unfold caption_of in Hp.
  destruct (inlineData p); [discriminate|].
  destruct (Js.truthy (text p)) eqn:Ht; [|discriminate]. now rewrite <- Hp.
Qed.

Lemma carries_inline_image response :
  is_Some (inline_image_url response) <->
  exists p, p ∈ response_parts response /\ is_Some (inlineData p).
Proof.
  unfold inline_image_url. rewrite last_is_Some. split.
  - intros Hne. destruct (omap inline_url (response_parts response))
      as [|u us] eqn:Hus; [congruence|].
    assert (Hu : u ∈ omap inline_url (response_parts response))
      by (rewrite Hus; left).
    apply list_elem_of_omap in Hu. destruct Hu as (p & Hin & Hp).
    exists p. split; [assumption|]. unfold inline_url in Hp.
    destruct (inlineData p); [eauto | discriminate].
  - intros (p & Hin & [blob Hblob]) Hnil.
    assert (Hu : "data:image/png;base64," +:+ Js.template (data blob)
                 ∈ omap inline_url (response_parts response)).
    { apply list_elem_of_omap. exists p. split; [assumption|].
      unfold inline_url. now rewrite Hblob. }
    rewrite Hnil in Hu. inversion Hu.
Qed.

(** C5: when the remote response carries an inline image payload (some
    part of its first candidate has [inlineData]), the image handler
    answers with type image, an image URL that starts with
    [data:image/png;base64,] and, as content, the accompanying caption or
    else [Generated: ] followed by the prompt; when it carries none, the
    handler answers with type text and a sentence that explains the
    failure, and throws nothing. *)
Theorem generateImage_image_or_text prompt st response w' :
  ai_generateContent (imageRequest prompt) (world st) = (Returned response, w') ->
  (forall url,
      inline_image_url response = Some url ->
      generateImage prompt st =
        (Returned
           (imageMessage
              (default ("Generated: " +:+ Js.template prompt)
                       (accompanying_caption response))
              url (fst (Date_now w'))),
         answered_state st (CallGenerateImage prompt) (imageRequest prompt) w')
      /\ String.prefix "data:image/png;base64," url = true)
  /\ (inline_image_url response = None ->
      generateImage prompt st =
        (Returned (imageFailure (fst (Date_now w'))),
         answered_state st (CallGenerateImage prompt) (imageRequest prompt) w'))
  /\ (is_Some (inline_image_url response) <->
      exists p, p ∈ response_parts response /\ is_Some (inlineData p)).
Proof.
  intros Hsvc. split; [|split; [|apply carries_inline_image]].
  - intros url Hurl. split; [|eapply inline_url_prefix; exact Hurl].
    pose proof (inline_url_prefix _ _ Hurl) as Hprefix.
    unfold generateImage; unfold_ops; simpl. rewrite Hsvc; simpl.
    rewrite image_scan_spec, Hurl; simpl.
    destruct url as [|c url]; [discriminate|]. simpl.
    unfold answered_state, imageMessage. rewrite <- app_assoc. simpl.
    destruct (accompanying_caption response) as [cap|] eqn:Hcap; simpl.
    + apply caption_truthy in Hcap. now destruct cap.
    + reflexivity.
  - intros Hnone.
    unfold generateImage; unfold_ops; simpl. rewrite Hsvc; simpl.
    rewrite image_scan_spec, Hnone; simpl.
    unfold answered_state. now rewrite <- app_assoc.
Qed.

(** *** The router's own answer and its citations *)

Lemma push_source_spec acc chunk :
  push_source acc chunk = acc ++ map normalize_citation (citations [chunk]).
Proof.
  unfold push_source, citations. simpl.
  destruct (web chunk) as [[u t]|]; simpl; [|now rewrite app_nil_r].
  unfold normalize_citation; simpl. do 3 f_equal.
  - now destruct u as [[|c s]|].
  - destruct t as [[|c s]|]; simpl; try reflexivity; now case_decide.
Qed.

Lemma citations_cons chunk chunks :
  citations (chunk :: chunks) = citations [chunk] ++ citations chunks.
Proof. apply (omap_app web [chunk] chunks). Qed.

Lemma push_source_fold chunks acc :
  fold_left push_source chunks acc =
  acc ++ map normalize_citation (citations chunks).
Proof.
  revert acc. induction chunks as [|chunk chunks IH]; intros acc.
  - simpl. now rewrite app_nil_r.
  - change (fold_left push_source (chunk :: chunks) acc)
      with (fold_left push_source chunks (push_source acc chunk)).
    rewrite IH, push_source_spec, (citations_cons chunk chunks), map_app.
    now rewrite <- app_assoc.
Qed.

Lemma collectSources_spec response :
  collectSources response =
  map normalize_citation (citations (default [] (first_chunks response))).
Proof.
  unfold collectSources.
  destruct (first_chunks response) as [chunks|]; simpl; [|reflexivity].
  apply push_source_fold.
Qed.

Lemma runOrchestrator_no_action prompt history att st response w' :
  Js.truthy att = false ->
  ai_generateContent (decisionRequest prompt) (world st) = (Returned response, w') ->
  no_action response ->
  runOrchestrator prompt history att st =
  answerDirectly response
    {| world := w';
       trace := trace st ++ [EvCall (CallRunOrchestrator prompt history att);
                             EvRequest (decisionRequest prompt)] |}.
Proof.
  intros Hatt Hsvc Hnone. unfold runOrchestrator; unfold_ops; simpl.
  rewrite Hatt; simpl. rewrite Hsvc; simpl. rewrite <- app_assoc; simpl.
  now destruct Hnone as [-> | ->].
Qed.

Lemma answerDirectly_run response st :
  answerDirectly response st =
  (Returned (textAnswer
               (Js.or_else (resp_text response) "I processed that request.")
               (match collectSources response with
                | [] => None
                | sources => Some sources
                end)
               (fst (Date_now (world st)))),
   {| world := snd (Date_now (world st)); trace := trace st |}).
Proof.
  unfold answerDirectly; unfold_ops; simpl. unfold textAnswer.
  now destruct (collectSources response).
Qed.

(** C6: when the decision response carries no action request and has
    grounding citations, the router's answer is of type text and its web
    sources are the citations in their order, each with its uri and its
    title, the title being [Source] when absent or empty. The one-citation
    list with uri [https://a] and an empty title becomes the one source with
    that uri and the title [Source]. *)
Theorem router_collects_citations prompt history att st response w' chunks :
  Js.truthy att = false ->
  ai_generateContent (decisionRequest prompt) (world st) = (Returned response, w') ->
  no_action response ->
  first_chunks response = Some chunks ->
  citations chunks <> [] ->
  runOrchestrator prompt history att st =
    (Returned (textAnswer
                 (Js.or_else (resp_text response) "I processed that request.")
                 (Some (map normalize_citation (citations chunks)))
                 (fst (Date_now w'))),
     answered_state st (CallRunOrchestrator prompt history att)
                    (decisionRequest prompt) w')
  /\ fold_left push_source
       [ {| web := Some {| web_uri := Some "https://a";
                           web_title := Some "" |} |} ] [] =
     [ {| uri := "https://a"; title := "Source" |} ].
Proof.
  intros Hatt Hsvc Hnone Hchunks Hcited. split; [|reflexivity].
  rewrite (runOrchestrator_no_action _ _ _ _ _ _ Hatt Hsvc Hnone).
  rewrite answerDirectly_run, collectSources_spec, Hchunks. simpl.
  unfold answered_state.
  destruct (citations chunks) as [|w ws]; [congruence|]. reflexivity.
Qed.

(** C7: when the router answers with free text and has collected no
    citation, the web-sources field of its message is absent; and no
    answer of the router ever carries an empty list of web sources. *)
Theorem no_citation_no_sources_field prompt history att st response w' :
  Js.truthy att = false ->
  ai_generateContent (decisionRequest prompt) (world st) = (Returned response, w') ->
  no_action response ->
  collectSources response = [] ->
  runOrchestrator prompt history att st =
    (Returned (textAnswer
                 (Js.or_else (resp_text response) "I processed that request.")
                 None
                 (fst (Date_now w'))),
     answered_state st (CallRunOrchestrator prompt history att)
                    (decisionRequest prompt) w')
  /\ (forall response0 st0 m st1,
        answerDirectly response0 st0 = (Returned m, st1) ->
        Js.chain (metadata m) webSources <> Some []).
Proof.
  intros Hatt Hsvc Hnone Hempty. split.
  - rewrite (runOrchestrator_no_action _ _ _ _ _ _ Hatt Hsvc Hnone).
    rewrite answerDirectly_run, Hempty. reflexivity.
  - intros response0 st0 m st1 Hrun. rewrite answerDirectly_run in Hrun.
    inversion Hrun; subst; simpl.
    now destruct (collectSources response0).
Qed.

(** *** The vision-analysis handler *)

Lemma split_comma_spec s :
  Js.split "," s =
  before_comma s :: match after_first_comma s with
                    | Some rest => Js.split "," rest
                    | None => []
                    end.
Proof.
  induction s as [|c s IH]; simpl; [reflexivity|].
  destruct (Ascii.eqb c ","); [reflexivity|]. now rewrite IH.
Qed.

Lemma split_comma_second s :
  Js.index (Js.split "," s) 1 = before_comma <$> after_first_comma s.
Proof.
  rewrite split_comma_spec. unfold Js.index. simpl.
  destruct (after_first_comma s) as [rest|]; simpl; [|reflexivity].
  now rewrite split_comma_spec.
Qed.

Lemma before_comma_whole s : after_first_comma s = None -> before_comma s = s.
Proof.
  induction s as [|c s IH]; simpl; [reflexivity|].
  destruct (Ascii.eqb c ","); [discriminate|]. intros Hs. now rewrite IH.
Qed.

Lemma analysisRequest_forwards prompt a :
  a <> "" ->
  forwarded_image (analysisRequest prompt (Some a)) =
  before_comma <$> after_first_comma a.
Proof.
  intros Ha. unfold forwarded_image, analysisRequest, analysisParts.
  destruct a as [|c a]; [congruence|].
  apply (split_comma_second (String c a)).
Qed.

(** C8, as amended: with an image attached whose text after the first
    comma has no further comma in it (a base64 data URI is such), the one
    request of the vision-analysis handler forwards, as image payload, the
    attachment stripped of its data-URI prefix, that is, the portion after
    the first comma. When the service answers, the result is of type text
    and its content is the analysis text, or [Analysis complete.] when
    there is none. *)
Theorem analyzeContent_forwards_payload prompt history a payload st :
  a <> "" ->
  after_first_comma a = Some payload ->
  after_first_comma payload = None ->
  requests_of (trace (snd (analyzeContent prompt history (Some a) st))) =
    requests_of (trace st) ++ [analysisRequest prompt (Some a)]
  /\ forwarded_image (analysisRequest prompt (Some a)) = Some payload
  /\ (forall response w',
        ai_generateContent (analysisRequest prompt (Some a)) (world st) =
          (Returned response, w') ->
        analyzeContent prompt history (Some a) st =
          (Returned (analysisMessage
                       (Js.or_else (resp_text response) "Analysis complete.")
                       (fst (Date_now w'))),
           answered_state st (CallAnalyzeContent prompt history (Some a))
                          (analysisRequest prompt (Some a)) w')).
Proof.
  intros Ha Hafter Hpayload. repeat split.
  - rewrite analyzeContent_trace, requests_of_app. reflexivity.
  - rewrite (analysisRequest_forwards _ _ Ha), Hafter. simpl.
    now rewrite (before_comma_whole _ Hpayload).
  - intros response w' Hsvc.
    unfold analyzeContent; unfold_ops; simpl. rewrite Hsvc; simpl.
    unfold answered_state. now rewrite <- app_assoc.
Qed.

(** *** Routing on the first action request *)

Lemma runOrchestrator_first_call prompt history att st response w' call rest :
  Js.truthy att = false ->
  ai_generateContent (decisionRequest prompt) (world st) = (Returned response, w') ->
  functionCalls response = Some (call :: rest) ->
  runOrchestrator prompt history att st =
  act_on_first history call (answerDirectly response)
               (routed_state prompt history att st w' call).
Proof.
  intros Hatt Hsvc Hcalls. unfold runOrchestrator; unfold_ops; simpl.
  rewrite Hatt; simpl. rewrite Hsvc; simpl. rewrite Hcalls; simpl.
  rewrite <- !app_assoc; simpl. reflexivity.
Qed.

Lemma action_table_sound history call n o c r h otherwise :
  name call = Some n ->
  args call = Some o ->
  action_table history n o = Some (c, r, h) ->
  act_on_first history call otherwise = h.
Proof.
  intros Hname Hargs. unfold action_table, act_on_first, name_is, read_arg.
  rewrite Hname, Hargs.
  repeat match goal with
         | |- context [String.eqb n ?x] => destruct (String.eqb n x)
         end;
    intros Htable; inversion Htable; subst; reflexivity.
Qed.

Lemma action_table_trace history n o c r h st :
  action_table history n o = Some (c, r, h) ->
  trace (snd (h st)) = trace st ++ [EvCall c; EvRequest r].
Proof.
  unfold action_table.
  repeat match goal with
         | |- context [String.eqb n ?x] => destruct (String.eqb n x)
         end;
    intros Htable; inversion Htable; subst;
    auto using generateImage_trace, generateSpeech_trace, generateCode_trace.
Qed.

(** *** Actions the router cannot act on *)

Lemma name_is_false call n : name call <> Some n -> name_is call n = false.
Proof.
  unfold name_is. destruct (name call) as [s|]; [|reflexivity].
  intros Hne. destruct (String.eqb_spec s n); congruence.
Qed.

Lemma name_is_true call n : name call = Some n -> name_is call n = true.
Proof. unfold name_is. intros ->. apply String.eqb_refl. Qed.

(** An action request whose name is none of the three the router knows
    (or that has no name) is no error: the router logs it and answers
    itself with the text of the decision response, or with [I processed
    that request.] when there is none; no handler is entered and no
    second request is issued. *)
Theorem unknown_action_answers_directly prompt history att st response w'
    call rest :
  Js.truthy att = false ->
  ai_generateContent (decisionRequest prompt) (world st) = (Returned response, w') ->
  functionCalls response = Some (call :: rest) ->
  name call <> Some "dispatch_create_image" ->
  name call <> Some "dispatch_speak_text" ->
  name call <> Some "dispatch_write_code" ->
  runOrchestrator prompt history att st =
  (Returned (textAnswer
               (Js.or_else (resp_text response) "I processed that request.")
               (match collectSources response with
                | [] => None
                | sources => Some sources
                end)
               (fst (Date_now w'))),
   {| world := snd (Date_now w');
      trace := trace st ++
        [EvCall (CallRunOrchestrator prompt history att);
         EvRequest (decisionRequest prompt);
         EvConsoleLog ("[Orchestrator] Routing to: " +:+ Js.template (name call))] |}).
Proof.
  intros Hatt Hsvc Hcalls Himage Hspeak Hcode.
  rewrite (runOrchestrator_first_call _ _ _ _ _ _ _ _ Hatt Hsvc Hcalls).
  unfold act_on_first.
  rewrite (name_is_false _ _ Himage), (name_is_false _ _ Hspeak),
    (name_is_false _ _ Hcode).
  now rewrite answerDirectly_run.
Qed.

Lemma act_on_first_no_args history call n otherwise st :
  n ∈ known_actions ->
  name call = Some n ->
  args call = None ->
  exists e, act_on_first history call otherwise st = (Threw e, st).
Proof.
  unfold known_actions. rewrite !elem_of_cons, elem_of_nil.
  intros Hn Hname Hargs. unfold act_on_first, name_is, read_arg, bind, throw.
  rewrite Hname, Hargs.
  destruct Hn as [-> | [-> | [-> | []]]]; simpl; eauto.
Qed.

(** An action request the router knows but that comes without arguments
    ends the turn with an error message: the argument cannot be read, so
    no handler is entered and no second request is issued. *)
Theorem missing_args_becomes_error prompt history att st response w'
    call rest n :
  Js.truthy att = false ->
  ai_generateContent (decisionRequest prompt) (world st) = (Returned response, w') ->
  functionCalls response = Some (call :: rest) ->
  n ∈ known_actions ->
  name call = Some n ->
  args call = None ->
  exists e,
    generateResponse prompt ORCHESTRATOR history att st =
    (Returned (errorMessage e (fst (Date_now w'))),
     {| world := snd (Date_now w');
        trace := trace st ++
          [EvCall (CallRunOrchestrator prompt history att);
           EvRequest (decisionRequest prompt);
           EvConsoleLog ("[Orchestrator] Routing to: " +:+ n);
           EvConsoleError "Gemini API Error:" e] |}).
Proof.
  intros Hatt Hsvc Hcalls Hn Hname Hargs.
  destruct (act_on_first_no_args history call n (answerDirectly response)
              (routed_state prompt history att st w' call) Hn Hname Hargs)
    as [e He].
  exists e. rewrite generateResponse_dispatch. unfold try_catch.
  simpl bound_handler.
  rewrite (runOrchestrator_first_call _ _ _ _ _ _ _ _ Hatt Hsvc Hcalls), He.
  unfold on_error; unfold_ops; simpl. rewrite Hname; simpl.
  now rewrite <- app_assoc.
Qed.

(** *** A rejected request *)

(** When the first request of a turn is rejected, in whatever mode, the
    turn ends with the error message made from the rejection; that request
    is the only one issued: nothing is retried and nothing else is tried. *)
Theorem rejected_request_is_not_retried prompt mode history att st e w' :
  ai_generateContent (first_request mode prompt att) (world st) = (Threw e, w') ->
  fst (generateResponse prompt mode history att st) =
    Returned (errorMessage e (fst (Date_now w')))
  /\ world (snd (generateResponse prompt mode history att st)) =
       snd (Date_now w')
  /\ requests_of (trace (snd (generateResponse prompt mode history att st))) =
       requests_of (trace st) ++ [first_request mode prompt att].
Proof.
  intros Hsvc. rewrite generateResponse_dispatch.
  destruct mode; simpl in Hsvc; simpl bound_handler; simpl first_request.
  - unfold runOrchestrator. destruct (Js.truthy att) eqn:Hatt.
    + unfold analyzeContent, try_catch, on_error; unfold_ops; simpl.
      rewrite Hsvc; simpl. rewrite !requests_of_app; simpl.
      now rewrite !app_nil_r.
    + unfold try_catch, on_error; unfold_ops; simpl.
      rewrite Hsvc; simpl. rewrite !requests_of_app; simpl.
      now rewrite !app_nil_r.
  - unfold generateCode, try_catch, on_error; unfold_ops; simpl.
    rewrite Hsvc; simpl. rewrite !requests_of_app; simpl.
    now rewrite !app_nil_r.
  - unfold generateImage, try_catch, on_error; unfold_ops; simpl.
    rewrite Hsvc; simpl. rewrite !requests_of_app; simpl.
    now rewrite !app_nil_r.
  - unfold generateSpeech, try_catch, on_error; unfold_ops; simpl.
    rewrite Hsvc; simpl. rewrite !requests_of_app; simpl.
    now rewrite !app_nil_r.
  - unfold analyzeContent, try_catch, on_error; unfold_ops; simpl.
    rewrite Hsvc; simpl. rewrite !requests_of_app; simpl.
    now rewrite !app_nil_r.
Qed.

(** *** What a turn costs *)

Lemma act_on_first_delta history call response st :
  trace (snd (act_on_first history call (answerDirectly response) st)) = trace st
  \/ exists c r,
      trace (snd (act_on_first history call (answerDirectly response) st)) =
        trace st ++ [EvCall c; EvRequest r]
      /\ is_handler_call c = true
      /\ is_decision r = false.
Proof.
  unfold act_on_first, bind, read_arg.
  repeat match goal with
         | |- context [name_is call ?x] => destruct (name_is call x)
         end;
    try (left; now rewrite answerDirectly_run);
    (destruct (args call) as [o|]; simpl; [right | now left]).
  - exists (CallGenerateImage (o !! "prompt")), (imageRequest (o !! "prompt")).
    now rewrite generateImage_trace.
  - exists (CallGenerateSpeech (o !! "text")), (speechRequest (o !! "text")).
    now rewrite generateSpeech_trace.
  - exists (CallGenerateCode (o !! "task_description") history),
      (codeRequest (o !! "task_description")).
    now rewrite generateCode_trace.
Qed.

Lemma runOrchestrator_rejected prompt history att st e w' :
  Js.truthy att = false ->
  ai_generateContent (decisionRequest prompt) (world st) = (Threw e, w') ->
  runOrchestrator prompt history att st =
  (Threw e,
   {| world := w';
      trace := trace st ++ [EvCall (CallRunOrchestrator prompt history att);
                            EvRequest (decisionRequest prompt)] |}).
Proof.
  intros Hatt Hsvc. unfold runOrchestrator; unfold_ops; simpl.
  rewrite Hatt; simpl. rewrite Hsvc; simpl. now rewrite <- app_assoc.
Qed.

Lemma runOrchestrator_delta prompt history att st :
  exists d,
    trace (snd (runOrchestrator prompt history att st)) = trace st ++ d
    /\ router_delta prompt history att d.
Proof.
  destruct (Js.truthy att) eqn:Hatt.
  - eexists. split; [|apply delta_analysis; exact Hatt].
    unfold runOrchestrator. rewrite Hatt. unfold bind at 1, enter, emit. simpl.
    rewrite analyzeContent_trace. simpl. now rewrite <- app_assoc.
  - destruct (ai_generateContent (decisionRequest prompt) (world st))
      as [[response | e] w'] eqn:Hsvc.
    + destruct (functionCalls response) as [[|call rest]|] eqn:Hcalls.
      * eexists. split; [|apply delta_decision; exact Hatt].
        rewrite (runOrchestrator_no_action _ _ _ _ _ _ Hatt Hsvc
                   (or_intror Hcalls)).
        now rewrite answerDirectly_run.
      * rewrite (runOrchestrator_first_call _ _ _ _ _ _ _ _ Hatt Hsvc Hcalls).
        destruct (act_on_first_delta history call response
                    (routed_state prompt history att st w' call))
          as [Hsame | (c & r & Hmore & Hc & Hr)].
        -- eexists. split; [rewrite Hsame; reflexivity|].
           apply delta_logged; exact Hatt.
        -- eexists. split; [rewrite Hmore; simpl; now rewrite <- app_assoc|].
           simpl. apply delta_routed; assumption.
      * eexists. split; [|apply delta_decision; exact Hatt].
        rewrite (runOrchestrator_no_action _ _ _ _ _ _ Hatt Hsvc
                   (or_introl Hcalls)).
        now rewrite answerDirectly_run.
    + eexists. split; [|apply delta_decision; exact Hatt].
      now rewrite (runOrchestrator_rejected _ _ _ _ _ _ Hatt Hsvc).
Qed.

Lemma handler_call_not_text c : is_handler_call c = true -> is_text_call c = false.
Proof. now destruct c. Qed.

(** Every turn issues one remote request or two, the first of them being
    the one its mode and attachment call for. There are two only in
    automatic mode without attachment, and the second one is never another
    intent detection. At most one specialized handler is entered, and
    [generateText] is not among the functions a turn can reach. *)
Theorem turn_budget prompt mode history att st :
  exists d,
    trace (snd (generateResponse prompt mode history att st)) = trace st ++ d
    /\ head (requests_of d) = Some (first_request mode prompt att)
    /\ (length (requests_of d) <= 2)%nat
    /\ (length (requests_of d) = 2%nat ->
        mode = ORCHESTRATOR /\ Js.truthy att = false)
    /\ Forall (fun r => is_decision r = false) (tail (requests_of d))
    /\ (length (List.filter is_handler_call (calls_of d)) <= 1)%nat
    /\ List.filter is_text_call (calls_of d) = [].
Proof.
  rewrite generateResponse_dispatch, try_catch_trace.
  assert (Hcases : mode = ORCHESTRATOR \/ mode <> ORCHESTRATOR)
    by (destruct mode; auto; right; discriminate).
  destruct Hcases as [-> | Hmode].
  - simpl bound_handler.
    destruct (runOrchestrator_delta prompt history att st) as (d & Hd & Hshape).
    eexists. split; [rewrite Hd, <- app_assoc; reflexivity|].
    rewrite calls_of_console_error, requests_of_console_error.
    simpl first_request.
    destruct Hshape as [Hatt | Hatt | line Hatt | line c r Hatt Hc Hr];
      rewrite Hatt; simpl; rewrite ?Hc, ?(handler_call_not_text _ Hc); simpl;
      repeat split; auto; try lia; try discriminate.
  - rewrite (bound_handler_trace _ _ _ _ _ Hmode).
    eexists. split; [rewrite <- app_assoc; reflexivity|].
    rewrite calls_of_console_error, requests_of_console_error.
    destruct mode; try congruence; simpl;
      repeat split; auto; try lia; try discriminate.
Qed.

(** *** The history reaches nobody *)

Lemma without_calls_app tr1 tr2 :
  without_calls (tr1 ++ tr2) = without_calls tr1 ++ without_calls tr2.
Proof. apply List.filter_app. Qed.

Lemma alike_ret {A} (a : A) : alike (ret a) (ret a).
Proof. intros st1 st2 Hsame. now split. Qed.

Lemma alike_throw {A} e : alike (@throw A e) (throw e).
Proof. intros st1 st2 Hsame. now split. Qed.

Lemma alike_bind {A B} (m1 m2 : M A) (k1 k2 : A -> M B) :
  alike m1 m2 -> (forall a, alike (k1 a) (k2 a)) -> alike (bind m1 k1) (bind m2 k2).
Proof.
  intros Hm Hk st1 st2 Hsame. unfold bind.
  destruct (Hm st1 st2 Hsame) as [Hout Hnext].
  destruct (m1 st1) as [[a1 | e1] st1'], (m2 st2) as [[a2 | e2] st2'];
    simpl in *; try discriminate.
  - inversion Hout; subst. now apply Hk.
  - inversion Hout; subst. now split.
Qed.

Lemma alike_try_catch {A} (b1 b2 : M A) (h1 h2 : Thrown -> M A) :
  alike b1 b2 -> (forall e, alike (h1 e) (h2 e)) ->
  alike (try_catch b1 h1) (try_catch b2 h2).
Proof.
  intros Hb Hh st1 st2 Hsame. unfold try_catch.
  destruct (Hb st1 st2 Hsame) as [Hout Hnext].
  destruct (b1 st1) as [[a1 | e1] st1'], (b2 st2) as [[a2 | e2] st2'];
    simpl in *; try discriminate.
  - inversion Hout; subst. now split.
  - inversion Hout; subst. now apply Hh.
Qed.

Lemma alike_enter c1 c2 : alike (enter c1) (enter c2).
Proof.
  intros st1 st2 [Hworld Htrace]. unfold enter, emit. simpl.
  split; [reflexivity|]. split; [assumption|]. simpl.
  rewrite !without_calls_app. simpl. now rewrite !app_nil_r.
Qed.

Lemma alike_emit ev : alike (emit ev) (emit ev).
Proof.
  intros st1 st2 [Hworld Htrace]. unfold emit. simpl.
  split; [reflexivity|]. split; [assumption|]. simpl.
  rewrite !without_calls_app. now rewrite Htrace.
Qed.

Lemma alike_now : alike now now.
Proof.
  intros st1 st2 [Hworld Htrace]. unfold now. simpl. rewrite Hworld.
  now repeat split.
Qed.

Lemma alike_generateContent r : alike (generateContent r) (generateContent r).
Proof.
  intros st1 st2 [Hworld Htrace]. unfold generateContent. simpl.
  rewrite Hworld. split; [reflexivity|]. split; [reflexivity|]. simpl.
  rewrite !without_calls_app. now rewrite Htrace.
Qed.

Lemma alike_read_arg call key : alike (read_arg call key) (read_arg call key).
Proof.
  unfold read_arg. destruct (args call); [apply alike_ret | apply alike_throw].
Qed.

Ltac alike_steps :=
  repeat first
    [ apply alike_ret
    | apply alike_throw
    | apply alike_enter
    | apply alike_now
    | apply alike_generateContent
    | apply alike_read_arg
    | apply alike_emit
    | apply alike_bind; [|intros]
    | match goal with
      | |- alike (if ?c then _ else _) (if ?c then _ else _) => destruct c
      | |- alike (match ?c with _ => _ end) (match ?c with _ => _ end) =>
          destruct c
      end ].

Lemma alike_generateImage prompt : alike (generateImage prompt) (generateImage prompt).
Proof. unfold generateImage. alike_steps. Qed.

Lemma alike_generateSpeech prompt :
  alike (generateSpeech prompt) (generateSpeech prompt).
Proof. unfold generateSpeech. alike_steps. Qed.

Lemma alike_generateCode prompt h1 h2 :
  alike (generateCode prompt h1) (generateCode prompt h2).
Proof. unfold generateCode. alike_steps. Qed.

Lemma alike_analyzeContent prompt h1 h2 att :
  alike (analyzeContent prompt h1 att) (analyzeContent prompt h2 att).
Proof. unfold analyzeContent. alike_steps. Qed.

Lemma alike_answerDirectly response :
  alike (answerDirectly response) (answerDirectly response).
Proof. unfold answerDirectly. alike_steps. Qed.

Lemma alike_runOrchestrator prompt h1 h2 att :
  alike (runOrchestrator prompt h1 att) (runOrchestrator prompt h2 att).
Proof.
  unfold runOrchestrator. apply alike_bind; [apply alike_enter | intros _].
  destruct (Js.truthy att); [apply alike_analyzeContent|].
  apply alike_bind; [apply alike_generateContent | intros response].
  destruct (functionCalls response) as [[|call rest]|];
    try apply alike_answerDirectly.
  apply alike_bind; [apply alike_emit | intros _].
  repeat match goal with
         | |- alike (if ?c then _ else _) (if ?c then _ else _) => destruct c
         end;
    try apply alike_answerDirectly;
    (apply alike_bind; [apply alike_read_arg | intros a]);
    auto using alike_generateImage, alike_generateSpeech, alike_generateCode.
Qed.

Lemma alike_on_error e : alike (on_error e) (on_error e).
Proof. unfold on_error, console_error. alike_steps. Qed.

(** The conversation history has no effect on a turn: with any two
    histories, in every mode, [generateResponse] issues the same requests,
    writes the same lines to the console, leaves the world in the same
    state and gives the same answer. *)
Theorem generateResponse_ignores_history prompt mode h1 h2 att st :
  fst (generateResponse prompt mode h1 att st) =
    fst (generateResponse prompt mode h2 att st)
  /\ world (snd (generateResponse prompt mode h1 att st)) =
       world (snd (generateResponse prompt mode h2 att st))
  /\ without_calls (trace (snd (generateResponse prompt mode h1 att st))) =
       without_calls (trace (snd (generateResponse prompt mode h2 att st))).
Proof.
  assert (Halike : alike (generateResponse prompt mode h1 att)
                         (generateResponse prompt mode h2 att)).
  { rewrite !generateResponse_dispatch.
    apply alike_try_catch; [|apply alike_on_error].
    destruct mode; simpl;
      auto using alike_runOrchestrator, alike_generateImage,
                 alike_generateSpeech, alike_generateCode,
                 alike_analyzeContent. }
  destruct (Halike st st (conj eq_refl eq_refl)) as [Hout [Hworld Htrace]].
  auto.
Qed.

(** *** The shape of every answer *)

Lemma answers_with_bind {A} P (m : M A) (k : A -> M PartialMessage) :
  (forall a, answers_with P (k a)) -> answers_with P (bind m k).
Proof.
  intros Hk st x st'. unfold bind.
  destruct (m st) as [[a | e] st1]; [apply Hk | discriminate].
Qed.

Lemma answers_with_ret (P : PartialMessage -> Prop) x :
  P x -> answers_with P (ret x).
Proof. intros Hx st y st' Hret. inversion Hret. now subst. Qed.

Lemma answers_with_throw P e : answers_with P (throw e).
Proof. intros st y st' Hret. discriminate. Qed.

Lemma generateImage_shaped prompt : answers_with shaped (generateImage prompt).
Proof.
  unfold generateImage.
  apply answers_with_bind; intros _. apply answers_with_bind; intros response.
  rewrite image_scan_spec. simpl.
  destruct (inline_image_url response) as [url|] eqn:Hurl; simpl.
  - pose proof (inline_url_prefix _ _ Hurl) as Hprefix.
    destruct url as [|c url]; [discriminate|]. simpl.
    apply answers_with_bind; intros t. apply answers_with_ret.
    unfold shaped, well_formed.
    destruct (default "" (accompanying_caption response)); exact Hprefix.
  - apply answers_with_bind; intros t. now apply answers_with_ret.
Qed.

Lemma generateSpeech_shaped prompt : answers_with shaped (generateSpeech prompt).
Proof.
  unfold generateSpeech.
  apply answers_with_bind; intros _. apply answers_with_bind; intros response.
  simpl. destruct (audio_payload response) as [[|c s]|]; simpl;
    try apply answers_with_throw.
  apply answers_with_bind; intros t. now apply answers_with_ret.
Qed.

Lemma generateCode_shaped prompt history :
  answers_with shaped (generateCode prompt history).
Proof.
  unfold generateCode.
  apply answers_with_bind; intros _. apply answers_with_bind; intros response.
  apply answers_with_bind; intros t. apply answers_with_ret.
  unfold shaped, well_formed. simpl.
  now destruct (resp_text response) as [[|c s]|].
Qed.

Lemma analyzeContent_shaped prompt history att :
  answers_with shaped (analyzeContent prompt history att).
Proof.
  unfold analyzeContent.
  apply answers_with_bind; intros _. apply answers_with_bind; intros response.
  apply answers_with_bind; intros t. apply answers_with_ret.
  unfold shaped, well_formed. simpl.
  now destruct (resp_text response) as [[|c s]|].
Qed.

Lemma answerDirectly_shaped response : answers_with shaped (answerDirectly response).
Proof.
  unfold answerDirectly.
  apply answers_with_bind; intros t. apply answers_with_ret.
  unfold shaped, well_formed. simpl.
  destruct (resp_text response) as [[|c s]|];
    now destruct (collectSources response).
Qed.

Lemma runOrchestrator_shaped prompt history att :
  answers_with shaped (runOrchestrator prompt history att).
Proof.
  unfold runOrchestrator.
  apply answers_with_bind; intros _.
  destruct (Js.truthy att); [apply analyzeContent_shaped|].
  apply answers_with_bind; intros response.
  destruct (functionCalls response) as [[|call rest]|];
    try apply answerDirectly_shaped.
  apply answers_with_bind; intros _.
  repeat match goal with
         | |- answers_with _ (if ?c then _ else _) => destruct c
         end;
    try apply answerDirectly_shaped;
    apply answers_with_bind; intros a;
    auto using generateImage_shaped, generateSpeech_shaped, generateCode_shaped.
Qed.

Lemma generateResponse_shaped prompt mode history att st :
  exists m st',
    generateResponse prompt mode history att st = (Returned m, st')
    /\ well_formed m = true.
Proof.
  rewrite generateResponse_dispatch. unfold try_catch.
  destruct (bound_handler mode prompt history att st) as [[m | e] st1] eqn:Hrun.
  - exists m, st1. split; [reflexivity|].
    assert (Hshaped : answers_with shaped (bound_handler mode prompt history att))
      by (destruct mode; simpl;
          auto using runOrchestrator_shaped, generateImage_shaped,
                     generateSpeech_shaped, generateCode_shaped,
                     analyzeContent_shaped).
    exact (Hshaped _ _ _ Hrun).
  - unfold on_error; unfold_ops; simpl. now do 2 eexists.
Qed.

(** Every turn ends with a message of the expected shape: it has no id,
    the model's role, a content that is not empty, a timestamp and exactly
    the metadata of its type: for an image a URL that starts with
    [data:image/png;base64,], for audio a payload that is not empty, for
    code the tag [typescript], for text nothing or web sources that are not
    an empty list, for an error nothing. *)
Theorem every_answer_is_well_formed prompt mode history att st :
  exists m st',
    generateResponse prompt mode history att st = (Returned m, st')
    /\ well_formed m = true.
Proof. apply generateResponse_shaped. Qed.

(** *** The speech handler and the parts of an analysis request *)


(** The parts of the analysis request end with the prompt. Without an
    attachment (none, or an empty string) the prompt is the only part. With
    one, a single inline part comes first; its mime type is [image/png]
    whatever the attachment says of itself, and its data is what stands
    between the first comma of the attachment and the next, so that an
    attachment without a comma is sent as an inline part without data. *)
Theorem analysisParts_shape prompt att :
  last (analysisParts prompt att) = Some {| text := Some prompt; inlineData := None |}
  /\ (Js.truthy att = false ->
      analysisParts prompt att = [ {| text := Some prompt; inlineData := None |} ])
  /\ (forall a,
        att = Some a ->
        a <> "" ->
        analysisParts prompt att =
        [ {| text := None;
             inlineData := Some {| mimeType := Some "image/png";
                                   data := before_comma <$> after_first_comma a |} |};
          {| text := Some prompt; inlineData := None |} ]).
Proof.
  split; [|split].
  - unfold analysisParts. now destruct att as [[|c a]|].
  - unfold analysisParts. now destruct att as [[|c a]|].
  - intros a -> Ha. unfold analysisParts.
    destruct a as [|c a]; [congruence|].
    now rewrite (split_comma_second (String c a)).
Qed.

(** *** The chat component *)

Lemma well_formed_reply m t t' :
  well_formed m = true ->
  exists c ty,
    content m = Some c /\ c <> "" /\ type m = Some ty
    /\ botMessage t t' m =
       {| msg_id := JsText.number_to_string (t + 1);
          msg_role := RoleModel;
          msg_content := c;
          msg_type := ty;
          msg_timestamp := t';
          msg_metadata := metadata m |}.
Proof.
  destruct m as [i r c ty ts md]. unfold well_formed, botMessage. simpl.
  destruct i; [discriminate|]. destruct r as [[]|]; try discriminate.
  destruct ts; [|discriminate].
  destruct c as [[|a c]|]; try discriminate. simpl.
  destruct ty as [ty|]; [|discriminate]. intros _.
  exists (String a c), ty. now repeat split.
Qed.

Lemma generateResponse_enters_bound_first prompt mode history att st :
  exists d,
    trace (snd (generateResponse prompt mode history att st)) =
    trace st ++ EvCall (bound_call mode prompt history att) :: d
    /\ head (requests_of d) = Some (first_request mode prompt att).
Proof.
  rewrite generateResponse_dispatch, try_catch_trace.
  assert (Hcases : mode = ORCHESTRATOR \/ mode <> ORCHESTRATOR)
    by (destruct mode; auto; right; discriminate).
  destruct Hcases as [-> | Hmode].
  - simpl bound_handler. simpl bound_call. simpl first_request.
    destruct (runOrchestrator_delta prompt history att st) as (d & Hd & Hshape).
    rewrite Hd.
    destruct Hshape as [Hatt | Hatt | line Hatt | line c r Hatt Hc Hr];
      rewrite Hatt; simpl; rewrite <- app_assoc; simpl;
      eexists; (split; reflexivity).
  - rewrite (bound_handler_trace _ _ _ _ _ Hmode), <- app_assoc. simpl.
    eexists. split; [reflexivity|]. simpl.
    now destruct mode.
Qed.


(** The state of a run after the clock was read twice. *)
Lemma handleSendMessage_run meanwhile s st :
  nothing_to_send s = false ->
  exists m st',
    generateResponse
      (msg_content (userMessage (fst (Date_now (world st)))
                      (fst (Date_now (snd (Date_now (world st)))))
                      (app_input s) (app_attachment s)))
      (app_mode s) (app_messages s) (app_attachment s)
      {| world := snd (Date_now (snd (Date_now (world st))));
         trace := trace st |} = (Returned m, st')
    /\ well_formed m = true
    /\ handleSendMessage meanwhile s st =
       (Returned
          (settled
             (push_message (reply_in (world st') m)
                (meanwhile
                   (sending (userMessage (fst (Date_now (world st)))
                               (fst (Date_now (snd (Date_now (world st)))))
                               (app_input s) (app_attachment s)) s)))),
        {| world := snd (Date_now (snd (Date_now (world st'))));
           trace := trace st' |}).
Proof.
  intros Hguard.
  destruct (generateResponse_shaped
              (msg_content (userMessage (fst (Date_now (world st)))
                              (fst (Date_now (snd (Date_now (world st)))))
                              (app_input s) (app_attachment s)))
              (app_mode s) (app_messages s) (app_attachment s)
              {| world := snd (Date_now (snd (Date_now (world st))));
                 trace := trace st |}) as (m & st' & Hrun & Hm).
  exists m, st'. split; [exact Hrun|]. split; [exact Hm|].
  unfold handleSendMessage. rewrite Hguard.
  unfold bind at 1 2 3, now at 1 2, try_catch at 1. cbv beta iota. simpl fst.
  simpl snd. simpl world. simpl trace.
  unfold bind at 1. rewrite Hrun.
  unfold bind, now, ret, reply_in. reflexivity.
Qed.

(** Sending a message that passes the guard reads the clock twice, for
    the user's message, and calls the service once, with the content of
    that message as prompt. The transcript gets the user's message, whose
    content is the text typed, followed by a line break and
    [[Attached Image]] when an image is attached, and then, after whatever
    other events added meanwhile, one reply of the model, made from the
    very answer [m] of that call: it has the content, the type and the
    metadata of [m], which is well formed, so that the place holder [...]
    and the component's own failure message are never shown, and the
    component logs nothing. In the end the loading flag is off and the
    attachment is dropped, whatever the answer was. *)
Theorem send_appends_the_reply meanwhile s st :
  nothing_to_send s = false ->
  exists userMsg reply m s' st1 st',
    userMsg = userMessage (fst (Date_now (world st)))
                (fst (Date_now (snd (Date_now (world st)))))
                (app_input s) (app_attachment s)
    /\ generateResponse (msg_content userMsg) (app_mode s) (app_messages s)
         (app_attachment s)
         {| world := snd (Date_now (snd (Date_now (world st))));
            trace := trace st |} = (Returned m, st1)
    /\ reply = botMessage (fst (Date_now (world st1)))
                 (fst (Date_now (snd (Date_now (world st1))))) m
    /\ handleSendMessage meanwhile s st = (Returned s', st')
    /\ s' = settled (push_message reply (meanwhile (sending userMsg s)))
    /\ trace st' = trace st1
    /\ world st' = snd (Date_now (snd (Date_now (world st1))))
    /\ app_messages (sending userMsg s) = app_messages s ++ [userMsg]
    /\ app_messages s' = app_messages (meanwhile (sending userMsg s)) ++ [reply]
    /\ app_mode s' = app_mode (meanwhile (sending userMsg s))
    /\ app_input s' = app_input (meanwhile (sending userMsg s))
    /\ app_isLoading s' = false
    /\ app_attachment s' = None
    /\ msg_role userMsg = RoleUser
    /\ msg_content userMsg =
         (if Js.truthy (app_attachment s)
          then app_input s +:+ newline +:+ "[Attached Image]"
          else app_input s)
    /\ msg_role reply = RoleModel
    /\ well_formed m = true
    /\ content m = Some (msg_content reply)
    /\ type m = Some (msg_type reply)
    /\ metadata m = msg_metadata reply.
Proof.
  intros Hguard.
  destruct (handleSendMessage_run meanwhile s st Hguard)
    as (m & st1 & Hservice & Hm & Hrun).
  destruct (well_formed_reply m (fst (Date_now (world st1)))
              (fst (Date_now (snd (Date_now (world st1))))) Hm)
    as (c & ty & Hc & _ & Hty & Hreply).
  exists (userMessage (fst (Date_now (world st)))
            (fst (Date_now (snd (Date_now (world st)))))
            (app_input s) (app_attachment s)).
  exists (botMessage (fst (Date_now (world st1)))
            (fst (Date_now (snd (Date_now (world st1))))) m).
  unfold reply_in in Hrun.
  exists m. eexists. exists st1. eexists.
  split; [reflexivity|]. split; [exact Hservice|]. split; [reflexivity|].
  split; [exact Hrun|]. split; [reflexivity|].
  rewrite Hreply, Hc, Hty. simpl.
  now repeat split.
Qed.

(** What the service is asked when a message is sent: the prompt is the
    content of the user's message, mark of the attachment included; the
    mode and the attachment are those of the component; the history is the
    transcript as it was before the user's message was added to it. The
    function entered first is the one bound to the mode, and the first
    request is the one the mode and the attachment call for. *)
Theorem send_asks_the_service meanwhile s st :
  nothing_to_send s = false ->
  exists prompt d,
    prompt = (if Js.truthy (app_attachment s)
              then app_input s +:+ newline +:+ "[Attached Image]"
              else app_input s)
    /\ trace (snd (handleSendMessage meanwhile s st)) =
         trace st ++
         EvCall (bound_call (app_mode s) prompt (app_messages s)
                            (app_attachment s)) :: d
    /\ head (requests_of d) =
         Some (first_request (app_mode s) prompt (app_attachment s)).
Proof.
  intros Hguard.
  destruct (handleSendMessage_run meanwhile s st Hguard)
    as (m & st1 & Hservice & _ & Hrun).
  rewrite Hrun. simpl snd. simpl trace.
  destruct (generateResponse_enters_bound_first
              (msg_content (userMessage (fst (Date_now (world st)))
                              (fst (Date_now (snd (Date_now (world st)))))
                              (app_input s) (app_attachment s)))
              (app_mode s) (app_messages s) (app_attachment s)
              {| world := snd (Date_now (snd (Date_now (world st))));
                 trace := trace st |}) as (d & Hd & Hfirst).
  rewrite Hservice in Hd. simpl in Hd.
  exists (msg_content (userMessage (fst (Date_now (world st)))
                         (fst (Date_now (snd (Date_now (world st)))))
                         (app_input s) (app_attachment s))), d.
  split; [reflexivity|]. split; assumption.
Qed.

(** Changing the mode sets it and adds one system message to the
    transcript, without a word to the service. In its bubble that message
    sits on the model's side, is signed [You], and has neither sources nor
    artifacts. *)
Theorem mode_switch_note newMode s st :
  exists note s' st',
    handleModeChange newMode s st = (Returned s', st')
    /\ trace st' = trace st
    /\ app_mode s' = newMode
    /\ app_messages s' = app_messages s ++ [note]
    /\ app_input s' = app_input s
    /\ app_isLoading s' = app_isLoading s
    /\ app_attachment s' = app_attachment s
    /\ msg_role note = RoleSystem
    /\ bubble_text (MessageBubble note) = "Switched to " +:+ modeLabels newMode
    /\ on_user_side (MessageBubble note) = false
    /\ signature (MessageBubble note) = "You"
    /\ source_links (MessageBubble note) = None
    /\ artifact_box (MessageBubble note) = None.
Proof.
  unfold handleModeChange; unfold_ops; simpl.
  do 3 eexists. split; [reflexivity|]. simpl. now repeat split.
Qed.

(** *** The bubble of a reply *)

Lemma well_formed_bubble m t t' :
  well_formed m = true ->
  shows (MessageBubble (botMessage t t' m)) m
  /\ Some (bubble_text (MessageBubble (botMessage t t' m))) = content m
  /\ signature (MessageBubble (botMessage t t' m)) = "Nexus AI"
  /\ on_user_side (MessageBubble (botMessage t t' m)) = false
  /\ source_links (MessageBubble (botMessage t t' m)) =
       (map (fun src => (uri src, title src)) <$> Js.chain (metadata m) webSources).
Proof.
  destruct m as [i r c ty ts md].
  unfold well_formed, shows, MessageBubble, botMessage, metadata_field. simpl.
  destruct i; [discriminate|]. destruct r as [[]|]; try discriminate.
  destruct ts; [|discriminate].
  destruct c as [[|a c]|]; try discriminate. simpl.
  destruct ty as [[]|]; try discriminate;
    (destruct md as [[[url|] [payload|] [tag|] [flag|] ws]|];
     try discriminate; simpl);
    try (destruct ws as [[|w ws]|]; try discriminate);
    try (destruct url as [|b url]; try discriminate);
    try (destruct payload as [|b payload]; try discriminate);
    intros _; simpl; eauto 10.
Qed.

(** The bubble of every reply shows what the type of the answer calls for:
    nothing under a text, the image of an image answer, a player with the
    payload of an audio answer, the code of a code answer (which is also
    the text of the bubble), and an empty box under an error. It is signed
    [Nexus AI], sits on the model's side, and has source links exactly when
    the answer has web sources. *)
Theorem every_reply_is_rendered prompt mode history att st :
  exists m st',
    generateResponse prompt mode history att st = (Returned m, st')
    /\ forall t t',
        shows (MessageBubble (botMessage t t' m)) m
        /\ Some (bubble_text (MessageBubble (botMessage t t' m))) = content m
        /\ signature (MessageBubble (botMessage t t' m)) = "Nexus AI"
        /\ on_user_side (MessageBubble (botMessage t t' m)) = false
        /\ source_links (MessageBubble (botMessage t t' m)) =
             (map (fun src => (uri src, title src))
                <$> Js.chain (metadata m) webSources).
Proof.
  destruct (generateResponse_shaped prompt mode history att st)
    as (m & st' & Hrun & Hm).
  exists m, st'. split; [exact Hrun|].
  intros t t'. now apply well_formed_bubble.
Qed.

(** *** The tools offered and the actions dispatched *)

Lemma name_is_inv call n : name_is call n = true -> name call = Some n.
Proof.
  unfold name_is. destruct (name call) as [s|]; [|discriminate].
  intros Heq. apply String.eqb_eq in Heq. now subst.
Qed.

Lemma declared_action_inv decl :
  decl ∈ declared_actions ->
  (decl_name decl = "dispatch_create_image"
   /\ required (parameters decl) = ["prompt"])
  \/ (decl_name decl = "dispatch_speak_text"
      /\ required (parameters decl) = ["text"])
  \/ (decl_name decl = "dispatch_write_code"
      /\ required (parameters decl) = ["task_description"]).
Proof.
  unfold declared_actions, orchestratorTools. simpl.
  rewrite !elem_of_cons, elem_of_nil.
  intros [-> | [-> | [-> | []]]]; simpl; auto.
Qed.

Lemma declared_action_named n :
  n ∈ known_actions ->
  exists decl, decl ∈ declared_actions /\ decl_name decl = n.
Proof.
  unfold known_actions. rewrite !elem_of_cons, elem_of_nil.
  intros [-> | [-> | [-> | []]]]; eexists;
    (split; [unfold declared_actions, orchestratorTools; simpl|]).
  - apply list_elem_of_here.
  - reflexivity.
  - apply list_elem_of_further, list_elem_of_here.
  - reflexivity.
  - apply list_elem_of_further, list_elem_of_further, list_elem_of_here.
  - reflexivity.
Qed.

(** What [runOrchestrator] adds to the trace once the routing is logged:
    nothing, or the entry and the request of one handler. *)
Lemma routed_tail prompt history att st response w' call rest :
  Js.truthy att = false ->
  ai_generateContent (decisionRequest prompt) (world st) = (Returned response, w') ->
  functionCalls response = Some (call :: rest) ->
  (trace (snd (runOrchestrator prompt history att st)) =
     trace (routed_state prompt history att st w' call)
   /\ (args call = None
       \/ forall n, n ∈ known_actions -> name call <> Some n))
  \/ exists n key o c r,
      n ∈ known_actions
      /\ name call = Some n
      /\ args call = Some o
      /\ (forall decl, decl ∈ declared_actions -> decl_name decl = n ->
           required (parameters decl) = [key])
      /\ trace (snd (runOrchestrator prompt history att st)) =
           trace (routed_state prompt history att st w' call) ++
           [EvCall c; EvRequest r]
      /\ is_handler_call c = true
      /\ handler_argument c = o !! key
      /\ request_text r = o !! key.
Proof.
  intros Hatt Hsvc Hcalls.
  rewrite (runOrchestrator_first_call _ _ _ _ _ _ _ _ Hatt Hsvc Hcalls).
  unfold act_on_first, bind, read_arg.
  destruct (name_is call "dispatch_create_image") eqn:Himage;
    [|destruct (name_is call "dispatch_speak_text") eqn:Hspeak;
      [|destruct (name_is call "dispatch_write_code") eqn:Hcode]].
  - apply name_is_inv in Himage.
    destruct (args call) as [o|]; simpl; [right | left; split; auto].
    exists "dispatch_create_image", "prompt", o,
      (CallGenerateImage (o !! "prompt")), (imageRequest (o !! "prompt")).
    rewrite generateImage_trace.
    repeat split; auto; try apply list_elem_of_here.
    intros decl Hdecl Hname.
    destruct (declared_action_inv decl Hdecl) as [[? ?] | [[? ?] | [? ?]]];
      congruence.
  - apply name_is_inv in Hspeak.
    destruct (args call) as [o|]; simpl; [right | left; split; auto].
    exists "dispatch_speak_text", "text", o,
      (CallGenerateSpeech (o !! "text")), (speechRequest (o !! "text")).
    rewrite generateSpeech_trace.
    repeat split; auto;
      try apply list_elem_of_further, list_elem_of_here.
    intros decl Hdecl Hname.
    destruct (declared_action_inv decl Hdecl) as [[? ?] | [[? ?] | [? ?]]];
      congruence.
  - apply name_is_inv in Hcode.
    destruct (args call) as [o|]; simpl; [right | left; split; auto].
    exists "dispatch_write_code", "task_description", o,
      (CallGenerateCode (o !! "task_description") history),
      (codeRequest (o !! "task_description")).
    rewrite generateCode_trace.
    repeat split; auto;
      try apply list_elem_of_further, list_elem_of_further, list_elem_of_here.
    intros decl Hdecl Hname.
    destruct (declared_action_inv decl Hdecl) as [[? ?] | [[? ?] | [? ?]]];
      congruence.
  - left. split; [now rewrite answerDirectly_run|]. right.
    unfold known_actions. intros n. rewrite !elem_of_cons, elem_of_nil.
    intros [-> | [-> | [-> | []]]] Hname;
      apply name_is_true in Hname; congruence.
Qed.

(** The router acts on exactly the actions that the tools declare: when
    the decision carries action requests, [runOrchestrator] enters a
    handler after logging the routing if and only if the name of the first
    request is that of a declared action and the request has its arguments
    object. The handler is then entered with the value of the one
    parameter that the declaration requires, and that value is the text of
    the handler's request. *)
Theorem declared_actions_are_dispatched prompt history att st response w'
    call rest :
  Js.truthy att = false ->
  ai_generateContent (decisionRequest prompt) (world st) = (Returned response, w') ->
  functionCalls response = Some (call :: rest) ->
  exists tail,
    trace (snd (runOrchestrator prompt history att st)) =
      trace (routed_state prompt history att st w' call) ++ tail
    /\ (tail <> [] <->
        (exists decl, decl ∈ declared_actions
                      /\ name call = Some (decl_name decl))
        /\ is_Some (args call))
    /\ (forall decl key o,
          decl ∈ declared_actions ->
          name call = Some (decl_name decl) ->
          required (parameters decl) = [key] ->
          args call = Some o ->
          exists c r,
            tail = [EvCall c; EvRequest r]
            /\ is_handler_call c = true
            /\ handler_argument c = o !! key
            /\ request_text r = o !! key).
Proof.
  intros Hatt Hsvc Hcalls.
  destruct (routed_tail prompt history att st response w' call rest
              Hatt Hsvc Hcalls)
    as [[Htrace Hwhy]
       | (n & key & o & c & r & Hn & Hname & Hargs & Hkey & Htrace & Hc
          & Harg & Htext)].
  - exists []. split; [now rewrite app_nil_r|].
    assert (Hnone : forall decl, decl ∈ declared_actions ->
                      name call = Some (decl_name decl) ->
                      args call = None).
    { intros decl Hdecl Hname. destruct Hwhy as [Hargs | Hunknown]; [assumption|].
      exfalso. apply (Hunknown (decl_name decl)); [|assumption].
      unfold known_actions. rewrite !elem_of_cons.
      destruct (declared_action_inv decl Hdecl) as [[-> _] | [[-> _] | [-> _]]];
        auto. }
    split.
    + split; [congruence|].
      intros [(decl & Hdecl & Hname) [o Hargs]].
      rewrite (Hnone decl Hdecl Hname) in Hargs. discriminate.
    + intros decl key o Hdecl Hname _ Hargs.
      rewrite (Hnone decl Hdecl Hname) in Hargs. discriminate.
  - exists [EvCall c; EvRequest r]. split; [exact Htrace|]. split.
    + split; [|discriminate]. intros _. split; [|eauto].
      destruct (declared_action_named n Hn) as (decl & Hdecl & <-). eauto.
    + intros decl key' o' Hdecl Hname' Hrequired Hargs'.
      assert (Hsame : decl_name decl = n) by congruence.
      pose proof (Hkey decl Hdecl Hsame) as Hkeys.
      assert (key' = key) by congruence. assert (o' = o) by congruence.
      subst. eauto 10.
Qed.

End Service.

(** *** Two services that differ only in how they answer the router *)

Section Agreement.

Context {W : Type}.
Variables svc svc' : Request -> W -> Outcome GenerateContentResponse * W.
Variable clock : W -> Z * W.
Hypothesis agree : forall r w, is_decision r = false -> svc' r w = svc r w.

Lemma generateImage_agree a st :
  generateImage svc' clock a st = generateImage svc clock a st.
Proof.
  unfold generateImage, bind, generateContent. simpl.
  now rewrite (agree (imageRequest a)).
Qed.

Lemma generateSpeech_agree a st :
  generateSpeech svc' clock a st = generateSpeech svc clock a st.
Proof.
  unfold generateSpeech, bind, generateContent. simpl.
  now rewrite (agree (speechRequest a)).
Qed.

Lemma generateCode_agree a history st :
  generateCode svc' clock a history st = generateCode svc clock a history st.
Proof.
  unfold generateCode, bind, generateContent. simpl.
  now rewrite (agree (codeRequest a)).
Qed.

Lemma act_on_first_agree history call (otherwise otherwise' : M PartialMessage) st :
  otherwise' st = otherwise st ->
  act_on_first svc' clock history call otherwise' st =
  act_on_first svc clock history call otherwise st.
Proof.
  intros Hotherwise. unfold act_on_first, bind, read_arg.
  repeat match goal with
         | |- context [name_is call ?x] => destruct (name_is call x)
         end;
    try assumption;
    destruct (args call); simpl;
    auto using generateImage_agree, generateSpeech_agree, generateCode_agree.
Qed.

End Agreement.

(** C1, as amended: when the router's decision carries action requests,
    the first one alone decides the run. If it has its [args] object and
    its name is in the action table, the run continues as the matching
    handler, which is given the one declared argument as it stands in
    [args] (and the code handler the history, the others not); that handler
    is the only one entered and its request the only one issued after the
    decision. A service that answers the router with other requests after
    the first one gives the same run. *)
Theorem first_action_only {W : Type}
    (svc svc' : Request -> W -> Outcome GenerateContentResponse * W)
    (clock : W -> Z * W) prompt history att (st : State)
    response w' call rest rest' :
  Js.truthy att = false ->
  svc (decisionRequest prompt) (world st) = (Returned response, w') ->
  functionCalls response = Some (call :: rest) ->
  (forall n o c r h,
      name call = Some n ->
      args call = Some o ->
      action_table svc clock history n o = Some (c, r, h) ->
      runOrchestrator svc clock prompt history att st =
        h (routed_state prompt history att st w' call)
      /\ calls_of (trace (snd (runOrchestrator svc clock prompt history att st))) =
           calls_of (trace st) ++ [CallRunOrchestrator prompt history att; c]
      /\ requests_of (trace (snd (runOrchestrator svc clock prompt history att st))) =
           requests_of (trace st) ++ [decisionRequest prompt; r])
  /\ (svc' (decisionRequest prompt) (world st) =
        (Returned (with_calls response (call :: rest')), w') ->
      (forall r w, is_decision r = false -> svc' r w = svc r w) ->
      runOrchestrator svc' clock prompt history att st =
      runOrchestrator svc clock prompt history att st).
Proof.
  intros Hatt Hsvc Hcalls. split.
  - intros n o c r h Hname Hargs Htable.
    rewrite (runOrchestrator_first_call svc clock _ _ _ _ _ _ _ _ Hatt Hsvc Hcalls).
    rewrite (action_table_sound svc clock _ _ _ _ _ _ _ _ Hname Hargs Htable).
    split; [reflexivity|].
    rewrite (action_table_trace svc clock _ _ _ _ _ _ _ Htable).
    unfold routed_state; simpl.
    rewrite !calls_of_app, !requests_of_app; simpl.
    now rewrite <- !app_assoc.
  - intros Hsvc' Hagree.
    rewrite (runOrchestrator_first_call svc clock _ _ _ _ _ _ _ _ Hatt Hsvc Hcalls).
    rewrite (runOrchestrator_first_call svc' clock _ _ _ _ _ _ call rest'
               Hatt Hsvc' eq_refl).
    now apply act_on_first_agree.
Qed.

(** ** The properties at work on the test doubles *)

(** The router is told to draw and then to speak: it draws, with the
    prompt of the first request, and a second request makes no difference. *)
Lemma first_action_only_witness :
  Js.truthy None = false
  /\ Fake.service (Fake.routing [Fake.draw_fox; Fake.say_hello])
       (decisionRequest "draw a red fox") 0 =
     (Returned (Fake.actions [Fake.draw_fox; Fake.say_hello]), 1)
  /\ functionCalls (Fake.actions [Fake.draw_fox; Fake.say_hello]) =
     Some [Fake.draw_fox; Fake.say_hello]
  /\ calls_of (trace (snd (runOrchestrator
                             (Fake.service (Fake.routing [Fake.draw_fox; Fake.say_hello]))
                             Fake.clock "draw a red fox" [] None (initial 0)))) =
     [CallRunOrchestrator "draw a red fox" [] None;
      CallGenerateImage (Some "a red fox")]
  /\ runOrchestrator (Fake.service (Fake.routing [Fake.draw_fox]))
       Fake.clock "draw a red fox" [] None (initial 0) =
     runOrchestrator (Fake.service (Fake.routing [Fake.draw_fox; Fake.say_hello]))
       Fake.clock "draw a red fox" [] None (initial 0).
Proof.
  destruct (first_action_only
              (Fake.service (Fake.routing [Fake.draw_fox; Fake.say_hello]))
              (Fake.service (Fake.routing [Fake.draw_fox]))
              Fake.clock "draw a red fox" [] None (initial 0)
              (Fake.actions [Fake.draw_fox; Fake.say_hello]) 1
              Fake.draw_fox [Fake.say_hello] []
              eq_refl eq_refl eq_refl) as [Hmap Hignored].
  do 3 (split; [reflexivity|]). split.
  - apply (Hmap "dispatch_create_image" {[ "prompt" := "a red fox" ]}
             (CallGenerateImage (Some "a red fox"))
             (imageRequest (Some "a red fox"))
             (generateImage
                (Fake.service (Fake.routing [Fake.draw_fox; Fake.say_hello]))
                Fake.clock (Some "a red fox")));
      reflexivity.
  - apply Hignored; [reflexivity|].
    intros r w Hr. unfold Fake.service, Fake.routing. now rewrite Hr.
Defined.

Lemma manual_mode_runs_bound_handler_witness :
  ARTIST <> ORCHESTRATOR
  /\ calls_of (trace (snd (generateResponse
                             (Fake.service (Fake.always Fake.fox_image))
                             Fake.clock "a red fox" ARTIST [] None (initial 0)))) =
     [CallGenerateImage (Some "a red fox")].
Proof.
  split; [discriminate|].
  apply (manual_mode_runs_bound_handler
           (Fake.service (Fake.always Fake.fox_image)) Fake.clock
           "a red fox" ARTIST [] None (initial 0)).
  discriminate.
Defined.

(** The prompt asks for a drawing, the attachment decides. *)
Lemma attachment_skips_intent_detection_witness :
  "data:image/png;base64,iVBORw0KGgo=" <> ""
  /\ requests_of (trace (snd (generateResponse
                                (Fake.service (Fake.always (Fake.plain "A fox.")))
                                Fake.clock "draw a red fox" ORCHESTRATOR []
                                (Some "data:image/png;base64,iVBORw0KGgo=")
                                (initial 0)))) =
     [analysisRequest "draw a red fox" (Some "data:image/png;base64,iVBORw0KGgo=")].
Proof.
  split; [discriminate|].
  apply (attachment_skips_intent_detection
           (Fake.service (Fake.always (Fake.plain "A fox."))) Fake.clock
           "draw a red fox" [] "data:image/png;base64,iVBORw0KGgo=" (initial 0)).
  discriminate.
Defined.

(** A rejected remote call in coder mode, and a response without audio in
    speaker mode. *)
Lemma failures_become_error_messages_witness :
  (bound_handler (Fake.service (Fake.failing "quota exceeded")) Fake.clock
     CODER "reverse a string" [] None (initial 0) =
   (Threw {| message := Some "quota exceeded" |},
    {| world := 1;
       trace := [EvCall (CallGenerateCode (Some "reverse a string") []);
                 EvRequest (codeRequest (Some "reverse a string"))] |})
   /\ content (match fst (generateResponse
                            (Fake.service (Fake.failing "quota exceeded"))
                            Fake.clock "reverse a string" CODER [] None
                            (initial 0)) with
               | Returned m => m
               | Threw _ => imageFailure 0
               end) = Some "System Error: quota exceeded")
  /\ (Fake.service (Fake.always Fake.silent) (speechRequest (Some "hello")) 0 =
      (Returned Fake.silent, 1)
      /\ Js.truthy (audio_payload Fake.silent) = false
      /\ exists m st',
          generateResponse (Fake.service (Fake.always Fake.silent)) Fake.clock
            "hello" SPEAKER [] None (initial 0) = (Returned m, st')
          /\ type m = Some TypeError
          /\ content m = Some "System Error: Audio data missing in response").
Proof.
  split.
  - split; [reflexivity|].
    rewrite (proj1 (failures_become_error_messages
                      (Fake.service (Fake.failing "quota exceeded")) Fake.clock
                      "reverse a string" CODER [] None (initial 0))
               {| message := Some "quota exceeded" |} _ eq_refl).
    reflexivity.
  - split; [reflexivity|]. split; [reflexivity|].
    apply (proj2 (failures_become_error_messages
                    (Fake.service (Fake.always Fake.silent)) Fake.clock
                    "hello" SPEAKER [] None (initial 0))
             Fake.silent 1); reflexivity.
Defined.

(** The scenario of the specification: artist mode, prompt [a red fox]. *)
Lemma generateImage_image_or_text_witness :
  (Fake.service (Fake.always Fake.fox_image) (imageRequest (Some "a red fox")) 0 =
   (Returned Fake.fox_image, 1)
   /\ inline_image_url Fake.fox_image = Some "data:image/png;base64,iVBORw0KGgo="
   /\ fst (generateImage (Fake.service (Fake.always Fake.fox_image)) Fake.clock
             (Some "a red fox") (initial 0)) =
      Returned (imageMessage "A red fox." "data:image/png;base64,iVBORw0KGgo=" 1))
  /\ (Fake.service (Fake.always Fake.silent) (imageRequest (Some "a red fox")) 0 =
      (Returned Fake.silent, 1)
      /\ inline_image_url Fake.silent = None
      /\ fst (generateImage (Fake.service (Fake.always Fake.silent)) Fake.clock
                (Some "a red fox") (initial 0)) =
         Returned (imageFailure 1)).
Proof.
  split; (split; [reflexivity|]); (split; [reflexivity|]).
  - destruct (generateImage_image_or_text
                (Fake.service (Fake.always Fake.fox_image)) Fake.clock
                (Some "a red fox") (initial 0) Fake.fox_image 1 eq_refl)
      as [Himage _].
    destruct (Himage "data:image/png;base64,iVBORw0KGgo=" eq_refl) as [Hrun _].
    rewrite Hrun. reflexivity.
  - destruct (generateImage_image_or_text
                (Fake.service (Fake.always Fake.silent)) Fake.clock
                (Some "a red fox") (initial 0) Fake.silent 1 eq_refl)
      as (_ & Htext & _).
    rewrite (Htext eq_refl). reflexivity.
Defined.

(** The round trip of the specification: one citation with an empty title. *)
Lemma router_collects_citations_witness :
  Js.truthy None = false
  /\ Fake.service (Fake.always Fake.grounded)
       (decisionRequest "what's the weather in Tokyo today") 0 =
     (Returned Fake.grounded, 1)
  /\ no_action Fake.grounded
  /\ first_chunks Fake.grounded =
     Some [ {| web := Some {| web_uri := Some "https://a";
                              web_title := Some "" |} |} ]
  /\ citations [ {| web := Some {| web_uri := Some "https://a";
                                   web_title := Some "" |} |} ] <> []
  /\ fst (runOrchestrator (Fake.service (Fake.always Fake.grounded)) Fake.clock
            "what's the weather in Tokyo today" [] None (initial 0)) =
     Returned (textAnswer "Sunny, 21 degrees."
                 (Some [ {| uri := "https://a"; title := "Source" |} ]) 1).
Proof.
  split; [reflexivity|]. split; [reflexivity|].
  split; [left; reflexivity|]. split; [reflexivity|].
  split; [discriminate|].
  rewrite (proj1 (router_collects_citations
                    (Fake.service (Fake.always Fake.grounded)) Fake.clock
                    "what's the weather in Tokyo today" [] None (initial 0)
                    Fake.grounded 1
                    [ {| web := Some {| web_uri := Some "https://a";
                                        web_title := Some "" |} |} ]
                    eq_refl eq_refl (or_introl eq_refl) eq_refl
                    ltac:(discriminate))).
  reflexivity.
Defined.

Lemma no_citation_no_sources_field_witness :
  Js.truthy None = false
  /\ Fake.service (Fake.always (Fake.plain "Hello.")) (decisionRequest "hi") 0 =
     (Returned (Fake.plain "Hello."), 1)
  /\ no_action (Fake.plain "Hello.")
  /\ collectSources (Fake.plain "Hello.") = []
  /\ fst (runOrchestrator (Fake.service (Fake.always (Fake.plain "Hello.")))
            Fake.clock "hi" [] None (initial 0)) =
     Returned (textAnswer "Hello." None 1).
Proof.
  split; [reflexivity|]. split; [reflexivity|].
  split; [left; reflexivity|]. split; [reflexivity|].
  rewrite (proj1 (no_citation_no_sources_field
                    (Fake.service (Fake.always (Fake.plain "Hello."))) Fake.clock
                    "hi" [] None (initial 0) (Fake.plain "Hello.") 1
                    eq_refl eq_refl (or_introl eq_refl) eq_refl)).
  reflexivity.
Defined.

(** A base64 data URI, as the browser's file reader produces it: what
    follows the prefix is forwarded whole. *)
Lemma analyzeContent_forwards_payload_witness :
  "data:image/png;base64,iVBORw0KGgo=" <> ""
  /\ after_first_comma "data:image/png;base64,iVBORw0KGgo=" = Some "iVBORw0KGgo="
  /\ after_first_comma "iVBORw0KGgo=" = None
  /\ forwarded_image
       (analysisRequest "what is this?" (Some "data:image/png;base64,iVBORw0KGgo=")) =
     Some "iVBORw0KGgo=".
Proof.
  split; [discriminate|]. split; [reflexivity|]. split; [reflexivity|].
  apply (analyzeContent_forwards_payload
           (Fake.service (Fake.always (Fake.plain "A fox."))) Fake.clock
           "what is this?" [] "data:image/png;base64,iVBORw0KGgo="
           "iVBORw0KGgo=" (initial 0) ltac:(discriminate) eq_refl eq_refl).
Defined.

(** An empty string is no attachment: the router asks for a decision. *)
Example empty_attachment_asks_router :
  requests_of (trace (snd (runOrchestrator
                             (Fake.service (Fake.always (Fake.plain "Hello.")))
                             Fake.clock "hi" [] (Some "") (initial 0)))) =
  [decisionRequest "hi"].
Proof. reflexivity. Qed.

(** C8 as stated fails on an image whose data URI has a comma after the
    prefix, as a URL-encoded SVG does: the payload forwarded stops at the
    second comma, so it is not the portion after the first one. *)
Lemma comma_in_payload_is_cut :
  forwarded_image
    (analysisRequest "describe"
       (Some "data:image/svg+xml,%3Csvg%20viewBox='0,0,8,8'/%3E")) =
  Some "%3Csvg%20viewBox='0"
  /\ after_first_comma "data:image/svg+xml,%3Csvg%20viewBox='0,0,8,8'/%3E" =
     Some "%3Csvg%20viewBox='0,0,8,8'/%3E"
  /\ forwarded_image
       (analysisRequest "describe"
          (Some "data:image/svg+xml,%3Csvg%20viewBox='0,0,8,8'/%3E")) <>
     after_first_comma "data:image/svg+xml,%3Csvg%20viewBox='0,0,8,8'/%3E".
Proof.
  split; [reflexivity|]. split; [reflexivity|]. discriminate.
Qed.

(** ** Further properties at work *)

Lemma unknown_action_answers_directly_witness :
  Js.truthy None = false
  /\ Fake.service (Fake.routing [Scene.translate]) (decisionRequest "say bonjour") 0 =
     (Returned (Fake.actions [Scene.translate]), 1)
  /\ name Scene.translate <> Some "dispatch_create_image"
  /\ name Scene.translate <> Some "dispatch_speak_text"
  /\ name Scene.translate <> Some "dispatch_write_code"
  /\ fst (runOrchestrator (Fake.service (Fake.routing [Scene.translate]))
            Fake.clock "say bonjour" [] None (initial 0)) =
     Returned (textAnswer "I processed that request." None 1).
Proof.
  split; [reflexivity|]. split; [reflexivity|].
  do 3 (split; [discriminate|]).
  rewrite (unknown_action_answers_directly
             (Fake.service (Fake.routing [Scene.translate])) Fake.clock
             "say bonjour" [] None (initial 0)
             (Fake.actions [Scene.translate]) 1 Scene.translate []
             eq_refl eq_refl eq_refl
             ltac:(discriminate) ltac:(discriminate) ltac:(discriminate)).
  reflexivity.
Defined.

Lemma missing_args_becomes_error_witness :
  Js.truthy None = false
  /\ Fake.service (Fake.routing [Scene.draw_nothing]) (decisionRequest "draw") 0 =
     (Returned (Fake.actions [Scene.draw_nothing]), 1)
  /\ "dispatch_create_image" ∈ known_actions
  /\ args Scene.draw_nothing = None
  /\ exists e,
      generateResponse (Fake.service (Fake.routing [Scene.draw_nothing]))
        Fake.clock "draw" ORCHESTRATOR [] None (initial 0) =
      (Returned (errorMessage e 1),
       {| world := 1;
          trace := [EvCall (CallRunOrchestrator "draw" [] None);
                    EvRequest (decisionRequest "draw");
                    EvConsoleLog "[Orchestrator] Routing to: dispatch_create_image";
                    EvConsoleError "Gemini API Error:" e] |}).
Proof.
  split; [reflexivity|]. split; [reflexivity|].
  split; [apply list_elem_of_here|]. split; [reflexivity|].
  apply (missing_args_becomes_error
           (Fake.service (Fake.routing [Scene.draw_nothing])) Fake.clock
           "draw" [] None (initial 0)
           (Fake.actions [Scene.draw_nothing]) 1 Scene.draw_nothing []
           "dispatch_create_image"
           eq_refl eq_refl eq_refl (list_elem_of_here _ _) eq_refl eq_refl).
Defined.

Lemma rejected_request_is_not_retried_witness :
  Fake.service (Fake.failing "quota exceeded")
    (first_request ORCHESTRATOR "hi" None) 0 =
  (Threw {| message := Some "quota exceeded" |}, 1)
  /\ requests_of (trace (snd (generateResponse
                                (Fake.service (Fake.failing "quota exceeded"))
                                Fake.clock "hi" ORCHESTRATOR [] None (initial 0)))) =
     [decisionRequest "hi"].
Proof.
  split; [reflexivity|].
  apply (rejected_request_is_not_retried
           (Fake.service (Fake.failing "quota exceeded")) Fake.clock
           "hi" ORCHESTRATOR [] None (initial 0)
           {| message := Some "quota exceeded" |} 1 eq_refl).
Defined.


(** A JPEG attached as a data URI goes out as [image/png]. *)
Lemma analysisParts_shape_witness :
  "data:image/jpeg;base64,/9j/4AAQ" <> ""
  /\ analysisParts "what is this?" (Some "data:image/jpeg;base64,/9j/4AAQ") =
     [ {| text := None;
          inlineData := Some {| mimeType := Some "image/png";
                                data := Some "/9j/4AAQ" |} |};
       {| text := Some "what is this?"; inlineData := None |} ].
Proof.
  split; [discriminate|].
  rewrite (proj2 (proj2 (analysisParts_shape "what is this?"
                           (Some "data:image/jpeg;base64,/9j/4AAQ")))
             "data:image/jpeg;base64,/9j/4AAQ" eq_refl ltac:(discriminate)).
  reflexivity.
Defined.


Lemma send_appends_the_reply_witness :
  nothing_to_send (Scene.typing ARTIST "a red fox" None) = false
  /\ exists m s' st1 st',
      generateResponse (Fake.service (Fake.always Fake.fox_image)) Fake.clock
        "a red fox" ARTIST [] None (initial 0) = (Returned m, st1)
      /\ handleSendMessage (Fake.service (Fake.always Fake.fox_image)) Fake.clock
           (fun s => s) (Scene.typing ARTIST "a red fox" None) (initial 0) =
         (Returned s', st')
      /\ trace st' = trace st1
      /\ length (app_messages s') = 2%nat
      /\ app_isLoading s' = false
      /\ app_attachment s' = None.
Proof.
  split; [reflexivity|].
  destruct (send_appends_the_reply
              (Fake.service (Fake.always Fake.fox_image)) Fake.clock
              (fun s => s) (Scene.typing ARTIST "a red fox" None) (initial 0)
              eq_refl)
    as (userMsg & reply & m & s' & st1 & st' & HuserMsg & Hservice & _ & Hrun
        & _ & Htrace & _ & Hsent & Hmessages & _ & _ & Hloading & Hattachment
        & _ & Hcontent & _ & _ & Hreply & _).
  exists m, s', st1, st'.
  split; [rewrite HuserMsg in Hservice; exact Hservice|].
  split; [exact Hrun|]. split; [exact Htrace|].
  split; [|split; assumption].
  cbv beta in Hmessages. rewrite Hmessages, Hsent. reflexivity.
Defined.

(** With an image attached in automatic mode, the analysis is asked about
    the text typed and the mark of the attachment. *)
Lemma send_asks_the_service_witness :
  nothing_to_send
    (Scene.typing ORCHESTRATOR "what is this?"
       (Some "data:image/png;base64,iVBORw0KGgo=")) = false
  /\ exists prompt d,
      prompt = "what is this?" +:+ newline +:+ "[Attached Image]"
      /\ trace (snd (handleSendMessage
                       (Fake.service (Fake.always (Fake.plain "A fox.")))
                       Fake.clock (fun s => s)
                       (Scene.typing ORCHESTRATOR "what is this?"
                          (Some "data:image/png;base64,iVBORw0KGgo="))
                       (initial 0))) =
         EvCall (CallRunOrchestrator prompt []
                   (Some "data:image/png;base64,iVBORw0KGgo=")) :: d
      /\ head (requests_of d) =
         Some (analysisRequest prompt (Some "data:image/png;base64,iVBORw0KGgo=")).
Proof.
  split; [reflexivity|].
  apply (send_asks_the_service
           (Fake.service (Fake.always (Fake.plain "A fox."))) Fake.clock (fun s => s)
           (Scene.typing ORCHESTRATOR "what is this?"
              (Some "data:image/png;base64,iVBORw0KGgo="))
           (initial 0) eq_refl).
Defined.

(** C1 as stated fails on an action request that has a known name and no
    [args] object: reading the argument throws, so that no handler is
    entered, the decision request is the only one issued and the turn ends
    with an error message. *)
Lemma known_action_without_args_enters_no_handler :
  functionCalls (Fake.actions [Scene.draw_nothing]) = Some [Scene.draw_nothing]
  /\ name Scene.draw_nothing = Some "dispatch_create_image"
  /\ args Scene.draw_nothing = None
  /\ calls_of (trace (snd (generateResponse
                             (Fake.service (Fake.routing [Scene.draw_nothing]))
                             Fake.clock "draw" ORCHESTRATOR [] None
                             (initial 0)))) =
     [CallRunOrchestrator "draw" [] None]
  /\ requests_of (trace (snd (generateResponse
                                (Fake.service (Fake.routing [Scene.draw_nothing]))
                                Fake.clock "draw" ORCHESTRATOR [] None
                                (initial 0)))) =
     [decisionRequest "draw"]
  /\ exists m st',
      generateResponse (Fake.service (Fake.routing [Scene.draw_nothing]))
        Fake.clock "draw" ORCHESTRATOR [] None (initial 0) = (Returned m, st')
      /\ type m = Some TypeError.
Proof.
  do 5 (split; [reflexivity|]).
  do 2 eexists. split; reflexivity.
Qed.

(** The router is told to draw a red fox: the image handler is entered
    with the prompt the declaration requires. *)
Lemma declared_actions_are_dispatched_witness :
  Js.truthy None = false
  /\ Fake.service (Fake.routing [Fake.draw_fox]) (decisionRequest "draw a red fox") 0 =
     (Returned (Fake.actions [Fake.draw_fox]), 1)
  /\ functionCalls (Fake.actions [Fake.draw_fox]) = Some [Fake.draw_fox]
  /\ exists tail,
      trace (snd (runOrchestrator (Fake.service (Fake.routing [Fake.draw_fox]))
                    Fake.clock "draw a red fox" [] None (initial 0))) =
      trace (routed_state "draw a red fox" [] None (initial 0) 1 Fake.draw_fox)
      ++ tail
      /\ tail <> [].
Proof.
  do 3 (split; [reflexivity|]).
  destruct (declared_actions_are_dispatched
              (Fake.service (Fake.routing [Fake.draw_fox])) Fake.clock
              "draw a red fox" [] None (initial 0)
              (Fake.actions [Fake.draw_fox]) 1 Fake.draw_fox []
              eq_refl eq_refl eq_refl) as (tail & Htrace & Hiff & _).
  exists tail. split; [exact Htrace|]. apply Hiff. split; [|eauto].
  destruct (declared_action_named "dispatch_create_image"
              (list_elem_of_here _ _)) as (decl & Hdecl & Hname).
  exists decl. split; [exact Hdecl|]. now rewrite Hname.
Defined.
